(** * AUC Archive chatbot: a shallow embedding of [auc_archive_chatbot.py]

    The development follows the Python source top-down:

    - [Text]     : the [str] methods the chatbot calls ([strip], [lower],
                   [lstrip('/')], [in], [startswith], slicing, [join]);
    - [Regex]    : the fragment of [re] used by [process_query], with the
                   backtracking order of [re.search];
    - [Py]       : JSON values as the [requests] library hands them over,
                   the dynamically typed operations applied to them and the
                   exceptions these operations raise;
    - [Api]      : class [AUCArchiveAPI] (the request strings it builds);
    - [Chatbot]  : class [AUCArchiveChatbot].

    Text is modelled by the strings of the standard library, which hold
    the UTF-8 encoding of the source text.  Comparison, the search of a
    substring, concatenation and [lstrip('/')] are exact on every text.
    The operations that look at the class of a character ([lower], the
    white space of [strip] and [\s], and [\w]) are Python's on ASCII text,
    the text for which [str.isascii()] holds, and leave every other byte
    alone: each statement below that depends on what they compute assumes
    [isascii] of the texts it puts through them.  JSON numbers are
    integers. *)

From Stdlib Require Import String Ascii List ZArith Lia Bool DecimalString.
Import ListNotations.
Open Scope string_scope.
Open Scope nat_scope.
Set Warnings "-register-all".

(* ================================================================= *)
(** ** Text *)

Module Text.

(** [str.isspace] on one ASCII character; this is also the class [\s] of
    [re] on [str] patterns, for ASCII characters.  The white space that
    Unicode adds (U+0085, U+00A0, U+2000 and the like) is not in it. *)
Definition is_space (c : ascii) : bool :=
  let n := nat_of_ascii c in
  ((9 <=? n) && (n <=? 13)) || ((28 <=? n) && (n <=? 32)).

Definition is_upper (c : ascii) : bool :=
  let n := nat_of_ascii c in (65 <=? n) && (n <=? 90).

Definition lower_char (c : ascii) : ascii :=
  if is_upper c then ascii_of_nat (nat_of_ascii c + 32) else c.

(** [s.lower()] for ASCII [s]: the letters A to Z are mapped, every other
    byte is kept. *)
Fixpoint lower (s : string) : string :=
  match s with
  | EmptyString => EmptyString
  | String c s' => String (lower_char c) (lower s')
  end.

(** [s.lstrip()] for ASCII [s] *)
Fixpoint lstrip (s : string) : string :=
  match s with
  | EmptyString => EmptyString
  | String c s' => if is_space c then lstrip s' else s
  end.

(** [s.rstrip()] for ASCII [s] *)
Fixpoint rstrip (s : string) : string :=
  match s with
  | EmptyString => EmptyString
  | String c s' =>
      match rstrip s' with
      | EmptyString => if is_space c then EmptyString else String c EmptyString
      | r => String c r
      end
  end.

(** [s.strip()] for ASCII [s] *)
Definition strip (s : string) : string := rstrip (lstrip s).

(** [s.lstrip('/')] *)
Fixpoint lstrip_slash (s : string) : string :=
  match s with
  | EmptyString => EmptyString
  | String c s' => if (c =? "/")%char then lstrip_slash s' else s
  end.

(** [s.startswith(p)] *)
Fixpoint startswith (p s : string) : bool :=
  match p, s with
  | EmptyString, _ => true
  | String a p', String b s' => (a =? b)%char && startswith p' s'
  | String _ _, EmptyString => false
  end.

(** [sub in s] *)
Fixpoint contains (sub s : string) : bool :=
  startswith sub s ||
  match s with
  | EmptyString => false
  | String _ s' => contains sub s'
  end.

(** [s[n:]] *)
Fixpoint drop (n : nat) (s : string) : string :=
  match n, s with
  | O, _ => s
  | S n', String _ s' => drop n' s'
  | S _, EmptyString => EmptyString
  end.

(** [s[:n]] *)
Fixpoint take (n : nat) (s : string) : string :=
  match n, s with
  | S n', String c s' => String c (take n' s')
  | _, _ => EmptyString
  end.

(** [sep.join(l)] on a list of strings *)
Definition join (sep : string) (l : list string) : string :=
  String.concat sep l.

(** [str(n)] for an integer *)
Definition str_of_Z (z : Z) : string := NilZero.string_of_int (Z.to_int z).

Definition str_of_nat (n : nat) : string := str_of_Z (Z.of_nat n).

(** Every character of [s] satisfies [p]. *)
Fixpoint all_chars (p : ascii -> bool) (s : string) : bool :=
  match s with
  | EmptyString => true
  | String c s' => p c && all_chars p s'
  end.

End Text.

(* ================================================================= *)
(** ** Regular expressions *)

Module Regex.
Import Text.

(** The constructs that occur in the three patterns of [process_query]:
    literal text, one character of a class, one or more characters of a
    class (greedy [C+] or lazy [C+?]), concatenation and a capturing
    group. *)
Inductive regex : Type :=
| Str (lit : string)
| Cls (p : ascii -> bool)
| Rep (greedy : bool) (p : ascii -> bool)
| Seq (r1 r2 : regex)
| Grp (r : regex).

(** [.] without [re.DOTALL]: anything but a line feed. *)
Definition dot (c : ascii) : bool := negb (c =? "010")%char.

(** [\w] on the ASCII range: letters, digits and the underscore.  The
    letters and digits that Unicode adds are not in it. *)
Definition word (c : ascii) : bool :=
  let n := nat_of_ascii c in
  ((48 <=? n) && (n <=? 57)) || ((65 <=? n) && (n <=? 90)) ||
  ((97 <=? n) && (n <=? 122)) || (n =? 95).

(** The non-empty prefixes of [s] made of characters of class [p], each
    with the text that follows it, shortest first. *)
Fixpoint runs (p : ascii -> bool) (s : string) : list (string * string) :=
  match s with
  | EmptyString => []
  | String c s' =>
      if p c
      then (String c EmptyString, s')
             :: map (fun mr => (String c (fst mr), snd mr)) (runs p s')
      else []
  end.

(** One way of matching: the text matched, the text left, and the texts of
    the groups closed on the way, in the order of their opening
    parentheses. *)
Definition outcome : Type := (string * string * list string)%type.

(** All the ways in which [r] matches at the start of [s], in the order in
    which a backtracking matcher tries them: the head of the list is the
    match that [re] reports. *)
Fixpoint matches (r : regex) (s : string) : list outcome :=
  match r with
  | Str lit =>
      if startswith lit s
      then [(lit, drop (String.length lit) s, [])] else []
  | Cls p =>
      match s with
      | String c s' => if p c then [(String c EmptyString, s', [])] else []
      | EmptyString => []
      end
  | Rep greedy p =>
      map (fun mr => (fst mr, snd mr, []))
          (if greedy then rev (runs p s) else runs p s)
  | Seq r1 r2 =>
      flat_map
        (fun o1 : outcome =>
           let '(m1, s1, g1) := o1 in
           map (fun o2 : outcome =>
                  let '(m2, s2, g2) := o2 in (m1 ++ m2, s2, (g1 ++ g2)%list))
               (matches r2 s1))
        (matches r1 s)
  | Grp r' =>
      map (fun o : outcome => let '(m, s', g) := o in (m, s', m :: g))
          (matches r' s)
  end.

(** [re.search(r, s)]: the first match at the leftmost position that has
    one; the result lists [group(1)], [group(2)], ... *)
Fixpoint search (r : regex) (s : string) : option (list string) :=
  match matches r s with
  | (_, _, g) :: _ => Some g
  | [] =>
      match s with
      | EmptyString => None
      | String _ s' => search r s'
      end
  end.

(** [m.group(n)] for [n >= 1] *)
Definition group (n : nat) (g : list string) : string :=
  nth (n - 1) g EmptyString.

Declare Scope regex_scope.
Delimit Scope regex_scope with re.
Infix ">>" := Seq (at level 61, right associativity) : regex_scope.

(** [r'browse\s+(.+)'] *)
Definition browse_re : regex :=
  (Str "browse" >> Rep true is_space >> Grp (Rep true dot))%re.

(** [r'search\s+(.+?)\s+in\s+(.+)'] *)
Definition search_in_re : regex :=
  (Str "search" >> Rep true is_space >> Grp (Rep false dot) >>
   Rep true is_space >> Str "in" >> Rep true is_space >>
   Grp (Rep true dot))%re.

(** [r'item\s+(\w+)\s+(\w+)'] *)
Definition item_re : regex :=
  (Str "item" >> Rep true is_space >> Grp (Rep true word) >>
   Rep true is_space >> Grp (Rep true word))%re.

End Regex.

(* ================================================================= *)
(** ** Python values *)

Module Py.
Import Text.

(** What [response.json()] returns.  A dict lists its keys in insertion
    order; a lookup takes the first binding of the key. *)
Inductive json : Type :=
| JNull
| JBool (b : bool)
| JInt (z : Z)
| JStr (s : string)
| JList (l : list json)
| JDict (d : list (string * json)).

(** The exceptions raised by the operations below. *)
Inductive exn : Type := AttributeError | TypeError | KeyError.

Inductive result (A : Type) : Type :=
| Ok (a : A)
| Raise (e : exn).

Arguments Ok {A} a.
Arguments Raise {A} e.

Definition bind {A B : Type} (r : result A) (f : A -> result B) : result B :=
  match r with
  | Ok a => f a
  | Raise e => Raise e
  end.

(** [k in d] and [d[k]] on the bindings of a dict *)
Fixpoint lookup {A : Type} (k : string) (d : list (string * A)) : option A :=
  match d with
  | [] => None
  | (k', v) :: d' => if (k' =? k)%string then Some v else lookup k d'
  end.

(** [d[k] = v]: a key already there keeps its place, a new key goes last. *)
Fixpoint store {A : Type} (k : string) (v : A) (d : list (string * A))
  : list (string * A) :=
  match d with
  | [] => [(k, v)]
  | (k', v') :: d' =>
      if (k' =? k)%string then (k', v) :: d' else (k', v') :: store k v d'
  end.

(** [bool(v)] *)
Definition truthy (v : json) : bool :=
  match v with
  | JNull => false
  | JBool b => b
  | JInt z => negb (z =? 0)%Z
  | JStr s => negb (s =? "")%string
  | JList l => match l with [] => false | _ :: _ => true end
  | JDict d => match d with [] => false | _ :: _ => true end
  end.

(** [v == s] for a string [s] *)
Definition eq_str (v : json) (s : string) : bool :=
  match v with
  | JStr t => (t =? s)%string
  | _ => false
  end.

(** [k in x] for a string [k] *)
Definition contains_key (k : string) (x : json) : result bool :=
  match x with
  | JDict d => Ok (match lookup k d with Some _ => true | None => false end)
  | JList l => Ok (existsb (fun v => eq_str v k) l)
  | JStr s => Ok (contains k s)
  | JNull | JBool _ | JInt _ => Raise TypeError
  end.

(** [x.get(k, default)] *)
Definition get (x : json) (k : string) (default : json) : result json :=
  match x with
  | JDict d => Ok (match lookup k d with Some v => v | None => default end)
  | _ => Raise AttributeError
  end.

(** [x[k]] for a string [k] *)
Definition getitem (x : json) (k : string) : result json :=
  match x with
  | JDict d =>
      match lookup k d with Some v => Ok v | None => Raise KeyError end
  | _ => Raise TypeError
  end.

(** [x[:n]]; a dict refuses the slice ([TypeError] up to Python 3.11) *)
Definition slice (x : json) (n : nat) : result json :=
  match x with
  | JList l => Ok (JList (firstn n l))
  | JStr s => Ok (JStr (take n s))
  | _ => Raise TypeError
  end.

Fixpoint chars (s : string) : list json :=
  match s with
  | EmptyString => []
  | String c s' => JStr (String c EmptyString) :: chars s'
  end.

(** The values that [for v in x] goes through *)
Definition iter (x : json) : result (list json) :=
  match x with
  | JList l => Ok l
  | JStr s => Ok (chars s)
  | JDict d => Ok (map (fun kv => JStr (fst kv)) d)
  | JNull | JBool _ | JInt _ => Raise TypeError
  end.

(** [len(x)] *)
Definition len (x : json) : result nat :=
  match x with
  | JList l => Ok (List.length l)
  | JStr s => Ok (String.length s)
  | JDict d => Ok (List.length d)
  | JNull | JBool _ | JInt _ => Raise TypeError
  end.

(** [x.lstrip('/')] *)
Definition lstrip_slash (x : json) : result string :=
  match x with
  | JStr s => Ok (Text.lstrip_slash s)
  | _ => Raise AttributeError
  end.

(** [x.lower()] *)
Definition lower (x : json) : result string :=
  match x with
  | JStr s => Ok (Text.lower s)
  | _ => Raise AttributeError
  end.

(** [x > n] for an integer [n] *)
Definition gt (x : json) (n : Z) : result bool :=
  match x with
  | JInt z => Ok (n <? z)%Z
  | JBool b => Ok (n <? (if b then 1 else 0))%Z
  | _ => Raise TypeError
  end.

(** [sep.join(l)]: every item has to be a string *)
Fixpoint strings (l : list json) : result (list string) :=
  match l with
  | [] => Ok []
  | JStr s :: l' => bind (strings l') (fun r => Ok (s :: r))
  | _ :: _ => Raise TypeError
  end.

Definition join (sep : string) (l : list json) : result string :=
  bind (strings l) (fun r => Ok (Text.join sep r)).

End Py.

Notation "x <- e ;; k" := (Py.bind e (fun x => k))
  (at level 61, e at next level, right associativity).

(* ================================================================= *)
(** ** Requests to the remote service *)

(** A computation of the chatbot may raise and may issue requests; the
    requests issued so far are kept, oldest first. *)
Definition M (A : Type) : Type :=
  list string -> Py.result A * list string.

Definition ret {A : Type} (a : A) : M A := fun log => (Py.Ok a, log).

Definition lift {A : Type} (r : Py.result A) : M A := fun log => (r, log).

Definition mbind {A B : Type} (m : M A) (f : A -> M B) : M B :=
  fun log =>
    match m log with
    | (Py.Ok a, log') => f a log'
    | (Py.Raise e, log') => (Py.Raise e, log')
    end.

Notation "x <~ m ;; k" := (mbind m (fun x => k))
  (at level 61, m at next level, right associativity).

(** [str] of a line feed *)
Definition nl : string := String "010" EmptyString.

(* ================================================================= *)
(** ** The program *)

Section Program.
Import Text Py.

(** [str(v)] and [repr(v)] of a list or of a dict are Python's own; the
    chatbot only pastes the text into its output. *)
Variable py_repr : json -> string.

(** The remote service: the decoded reply to [requests.get(url)], or the
    dict [{"error": ...}] that [_make_request] builds when the request or
    the decoding fails. *)
Variable http_get : string -> json.

(** What an f-string puts in place of [{v}] *)
Definition str_of (v : json) : string :=
  match v with
  | JStr s => s
  | JInt z => str_of_Z z
  | JBool true => "True"
  | JBool false => "False"
  | JNull => "None"
  | JList _ | JDict _ => py_repr v
  end.

(** *** class AUCArchiveAPI *)

Definition base_url : string := "https://digitalcollections.aucegypt.edu".

Definition api_url : string :=
  base_url ++ "/digital/bl/dmwebservices/index.php".

Definition request (url : string) : M json :=
  fun log => (Ok (http_get url), (log ++ [url])%list).

(** [_make_request(function, params)] with [format_type = "json"] *)
Definition make_request (function : string) (params : list json) : M json :=
  param_string <~ lift (match params with
                        | [] => Ok ""
                        | _ :: _ => Py.join "/" params
                        end) ;;
  let query :=
    if (param_string =? "")%string
    then function ++ "/json"
    else function ++ "/" ++ param_string ++ "/json" in
  request (api_url ++ "?q=" ++ query).

Definition api_get_collections : M json :=
  make_request "dmGetCollectionList" [].

(** [search_items(collection_alias, search_terms, max_records=...)] with
    the default [fields] *)
Definition api_search_items (collection_alias : json) (search_terms : string)
  (max_records : Z) : M json :=
  let fields := ["title"; "date"; "subjec"; "descri"] in
  let search_string := "CISOSEARCHALL^" ++ search_terms ++ "^any^and" in
  let field_string := Text.join "!" fields in
  make_request "dmQuery"
    [collection_alias; JStr search_string; JStr field_string;
     JStr "nosort"; JStr (str_of_Z max_records); JStr "1"; JStr "0";
     JStr "0"; JStr "0"; JStr "0"; JStr "0"; JStr "0"].

Definition api_get_item_info (collection_alias item_id : string) : M json :=
  make_request "dmGetItemInfo" [JStr collection_alias; JStr item_id].

Definition api_get_collection_info (collection_alias : json) : M json :=
  make_request "dmGetCollectionFieldInfo" [collection_alias].

(** [browse_collection(collection_alias)] with the default [fields] and
    [max_records] *)
Definition api_browse_collection (collection_alias : json) : M json :=
  let fields := ["title"; "date"; "subjec"] in
  let field_string := Text.join "!" fields in
  make_request "dmQuery"
    [collection_alias; JStr "0"; JStr field_string;
     JStr "nosort"; JStr (str_of_Z 20); JStr "1"; JStr "0";
     JStr "0"; JStr "0"; JStr "0"; JStr "0"; JStr "0"].

(** *** class AUCArchiveChatbot *)

Record chatbot : Type := {
  collections : json;
  collection_lookup : list (string * string)
}.

(** [__init__] *)
Definition new_chatbot : chatbot :=
  {| collections := JNull; collection_lookup := [] |}.

(** The loop of [initialize] over the collections *)
Fixpoint fill_lookup (cs : list json) (lk : list (string * string))
  : result (list (string * string)) :=
  match cs with
  | [] => Ok lk
  | collection :: cs' =>
      a <- get collection "alias" (JStr "") ;;
      alias <- Py.lstrip_slash a ;;
      name <- get collection "name" (JStr "") ;;
      if negb (alias =? "")%string
      then
        name_lower <- Py.lower name ;;
        fill_lookup cs' (store name_lower alias (store (Text.lower alias) alias lk))
      else fill_lookup cs' lk
  end.

(** [initialize]: the new state and the value returned (console output is
    not modelled) *)
Definition initialize (cb : chatbot) : M (chatbot * bool) :=
  collections_data <~ api_get_collections ;;
  failed <~ lift (contains_key "error" collections_data) ;;
  if failed
  then _ <~ lift (getitem collections_data "error") ;; ret (cb, false)
  else
    cs <~ lift (iter collections_data) ;;
    lk <~ lift (fill_lookup cs (collection_lookup cb)) ;;
    ret ({| collections := collections_data; collection_lookup := lk |}, true).

Definition item_url (clean_alias : string) (pointer : json) : string :=
  "https://digitalcollections.aucegypt.edu/digital/collection/"
    ++ clean_alias ++ "/id/" ++ str_of pointer.

(** The lines that one turn of the loop of [format_search_results] appends
    to [output] *)
Definition search_result_lines (i : nat) (record : json)
  : result (list string) :=
  title <- get record "title" (JStr "Untitled") ;;
  date <- get record "date" (JStr "Date unknown") ;;
  collection_alias <- get record "collection" (JStr "") ;;
  pointer <- get record "pointer" (JStr "") ;;
  clean_alias <- Py.lstrip_slash collection_alias ;;
  Ok ((str_of_nat i ++ ". **" ++ str_of title ++ "**")
        :: app (if truthy date && negb (eq_str date "Date unknown")
                then ["   📅 " ++ str_of date] else [])
               ["   🔗 " ++ item_url clean_alias pointer; ""]).

(** [for i, record in enumerate(records, i): ...] *)
Fixpoint search_result_loop (i : nat) (records : list json)
  (output : list string) : result (list string) :=
  match records with
  | [] => Ok output
  | record :: records' =>
      lines <- search_result_lines i record ;;
      search_result_loop (S i) records' (app output lines)
  end.

(** [format_search_results] from the line that fills [output] on: the
    list [output] at the final [return] *)
Definition search_results_output (results collection_name : json)
  : result (list string) :=
  let output :=
    if truthy collection_name
    then ["🔍 Search results from '" ++ str_of collection_name ++ "':" ++ nl]
    else ["🔍 Search results:" ++ nl] in
  all <- getitem results "records" ;;
  records <- slice all 10 ;;
  items <- iter records ;;
  output <- search_result_loop 1 items output ;;
  pager <- get results "pager" (JDict []) ;;
  n <- len records ;;
  total <- get pager "total" (JInt (Z.of_nat n)) ;;
  more <- gt total (Z.of_nat n) ;;
  Ok (if more
      then app output ["📊 Showing " ++ str_of_nat n ++ " of " ++ str_of total
                         ++ " total results"]
      else output).

Definition format_search_results (results collection_name : json)
  : result string :=
  failed <- contains_key "error" results ;;
  if failed
  then e <- getitem results "error" ;; Ok ("❌ Search error: " ++ str_of e)
  else
    records <- get results "records" JNull ;;
    if negb (truthy records)
    then Ok "📭 No items found matching your search criteria."
    else
      output <- search_results_output results collection_name ;;
      Ok (Text.join nl output).

(** [format_item_details] from the line that fills [output] on: the list
    [output] at the final [return] *)
Definition item_details_output (item_data : json) (collection_alias : string)
  : result (list string) :=
  let output := ["📄 **Item Details:**" ++ nl] in
  title <- get item_data "title" (JStr "Untitled") ;;
  let output := app output ["**Title:** " ++ str_of title] in
  date <- get item_data "date" (JStr "") ;;
  let output :=
    if truthy date then app output ["**Date:** " ++ str_of date]
    else output in
  creator_long <- get item_data "creator" (JStr "") ;;
  creator <- get item_data "creato" creator_long ;;
  let output :=
    if truthy creator then app output ["**Creator:** " ++ str_of creator]
    else output in
  subject_long <- get item_data "subject" (JStr "") ;;
  subject <- get item_data "subjec" subject_long ;;
  let output :=
    if truthy subject then app output ["**Subject:** " ++ str_of subject]
    else output in
  description_long <- get item_data "description" (JStr "") ;;
  description <- get item_data "descri" description_long ;;
  let output :=
    if truthy description
    then app output ["**Description:** " ++ str_of description]
    else output in
  type_field <- get item_data "type" (JStr "") ;;
  format_field <- get item_data "format" type_field ;;
  let output :=
    if truthy format_field
    then app output ["**Format:** " ++ str_of format_field]
    else output in
  rights <- get item_data "rights" (JStr "") ;;
  let output :=
    if truthy rights then app output ["**Rights:** " ++ str_of rights]
    else output in
  pointer_long <- get item_data "pointer" (JStr "") ;;
  pointer <- get item_data "dmrecord" pointer_long ;;
  let output :=
    if truthy pointer
    then
      let clean_alias := Text.lstrip_slash collection_alias in
      app output
          [nl ++ "🔗 **View Item:** " ++ item_url clean_alias pointer]
    else output in
  Ok output.

Definition format_item_details (item_data : json) (collection_alias : string)
  : result string :=
  failed <- contains_key "error" item_data ;;
  if failed
  then
    e <- getitem item_data "error" ;;
    Ok ("❌ Error retrieving item: " ++ str_of e)
  else
    output <- item_details_output item_data collection_alias ;;
    Ok (Text.join nl output).

(** [find_collection_alias]: the loop over [collection_lookup.items()] *)
Fixpoint partial_match (collection_name : string)
  (items : list (string * string)) : option string :=
  match items with
  | [] => None
  | (key, alias) :: items' =>
      if contains collection_name key || contains key collection_name
      then Some alias
      else partial_match collection_name items'
  end.

Definition find_collection_alias (cb : chatbot) (collection_name : string)
  : option string :=
  let collection_name := strip (Text.lower collection_name) in
  match lookup collection_name (collection_lookup cb) with
  | Some alias => Some alias
  | None => partial_match collection_name (collection_lookup cb)
  end.

(** [next((c for c in self.collections if c.get('alias') == alias), {})] *)
Fixpoint first_with_alias (collection_alias : string) (cs : list json)
  : result json :=
  match cs with
  | [] => Ok (JDict [])
  | c :: cs' =>
      a <- get c "alias" JNull ;;
      if eq_str a collection_alias then Ok c
      else first_with_alias collection_alias cs'
  end.

Definition not_found_message (collection_name : string) : string :=
  "❌ Collection '" ++ collection_name
    ++ "' not found. Use 'list collections' to see available collections.".

(** [if not collection_alias] on the value of [find_collection_alias] *)
Definition found (collection_alias : option string) : option string :=
  match collection_alias with
  | Some a => if (a =? "")%string then None else Some a
  | None => None
  end.

Definition browse_collection (cb : chatbot) (collection_name : string)
  : M string :=
  match found (find_collection_alias cb collection_name) with
  | None => ret (not_found_message collection_name)
  | Some collection_alias =>
      results <~ api_browse_collection (JStr collection_alias) ;;
      cs <~ lift (iter (collections cb)) ;;
      collection_info <~ lift (first_with_alias collection_alias cs) ;;
      collection_display_name <~
        lift (get collection_info "name" (JStr collection_name)) ;;
      lift (format_search_results results collection_display_name)
  end.

Definition search_in_collection (cb : chatbot)
  (search_terms collection_name : string) : M string :=
  match found (find_collection_alias cb collection_name) with
  | None => ret (not_found_message collection_name)
  | Some collection_alias =>
      results <~ api_search_items (JStr collection_alias) search_terms 20 ;;
      cs <~ lift (iter (collections cb)) ;;
      collection_info <~ lift (first_with_alias collection_alias cs) ;;
      collection_display_name <~
        lift (get collection_info "name" (JStr collection_name)) ;;
      lift (format_search_results results collection_display_name)
  end.

(** The first loop of [search_all_collections]: the records gathered and
    the names of the collections that gave some *)
Fixpoint search_loop (search_terms : string) (cs : list json)
  (all_results searched_collections : list json)
  : M (list json * list json) :=
  match cs with
  | [] => ret (all_results, searched_collections)
  | collection :: cs' =>
      alias <~ lift (get collection "alias" (JStr "")) ;;
      name <~ lift (get collection "name" (JStr "")) ;;
      if truthy alias
      then
        results <~ api_search_items alias search_terms 5 ;;
        records <~ lift (get results "records" JNull) ;;
        if truthy records
        then
          records <~ lift (getitem results "records") ;;
          items <~ lift (iter records) ;;
          search_loop search_terms cs' (app all_results items)
                      (app searched_collections [name])
        else search_loop search_terms cs' all_results searched_collections
      else search_loop search_terms cs' all_results searched_collections
  end.

(** The lines that one turn of the second loop appends to [output] *)
Definition combined_result_lines (i : nat) (record : json)
  : result (list string) :=
  title <- get record "title" (JStr "Untitled") ;;
  date <- get record "date" (JStr "") ;;
  collection_alias <- get record "collection" (JStr "") ;;
  pointer <- get record "pointer" (JStr "") ;;
  clean_alias <- Py.lstrip_slash collection_alias ;;
  Ok ((str_of_nat i ++ ". **" ++ str_of title ++ "**")
        :: app (if truthy date then ["   📅 " ++ str_of date] else [])
               ["   📚 Collection: " ++ str_of collection_alias;
                "   🔗 " ++ item_url clean_alias pointer; ""]).

Fixpoint combined_result_loop (i : nat) (records : list json)
  (output : list string) : result (list string) :=
  match records with
  | [] => Ok output
  | record :: records' =>
      lines <- combined_result_lines i record ;;
      combined_result_loop (S i) records' (app output lines)
  end.

Definition no_results_message (search_terms : string) : string :=
  "📭 No items found for '" ++ search_terms
    ++ "' across searched collections.".

Definition no_collections_message : string :=
  "❌ No collections available for search.".

(** The list [output] of [search_all_collections] at the final [return] *)
Definition combined_output (search_terms : string)
  (all_results searched_collections : list json) : result (list string) :=
  let output :=
    ["🔍 Search results for '" ++ search_terms ++ "' across collections:"
       ++ nl] in
  output <- combined_result_loop 1 (firstn 10 all_results) output ;;
  names <- Py.join ", " (firstn 3 searched_collections) ;;
  let output := app output ["📊 Searched in: " ++ names] in
  Ok (if 3 <? List.length searched_collections
      then app output
             [" and " ++ str_of_nat (List.length searched_collections - 3)
                ++ " more collections"]
      else output).

Definition search_all_collections (cb : chatbot) (search_terms : string)
  : M string :=
  if negb (truthy (collections cb))
  then ret no_collections_message
  else
    first5 <~ lift (slice (collections cb) 5) ;;
    cs <~ lift (iter first5) ;;
    found <~ search_loop search_terms cs [] [] ;;
    let '(all_results, searched_collections) := found in
    match all_results with
    | [] => ret (no_results_message search_terms)
    | _ :: _ =>
        output <~
          lift (combined_output search_terms all_results
                                searched_collections) ;;
        ret (Text.join nl output)
    end.

Definition get_item_details (collection_alias item_id : string) : M string :=
  item_data <~ api_get_item_info collection_alias item_id ;;
  lift (format_item_details item_data collection_alias).

(** The lines that one turn of the loop of [list_collections] appends *)
Definition collection_lines (collection : json) : result (list string) :=
  name <- get collection "name" (JStr "Unknown") ;;
  a <- get collection "alias" (JStr "unknown") ;;
  alias <- Py.lstrip_slash a ;;
  secondary <- get collection "secondary" (JStr "") ;;
  Ok (("• **" ++ str_of name ++ "** (`" ++ alias ++ "`)")
        :: (if truthy secondary && negb (eq_str secondary "0")
            then ["  └─ Part of: " ++ str_of secondary] else [])).

Fixpoint collection_loop (cs : list json) (output : list string)
  : result (list string) :=
  match cs with
  | [] => Ok output
  | collection :: cs' =>
      lines <- collection_lines collection ;;
      collection_loop cs' (app output lines)
  end.

Definition list_collections (cb : chatbot) : result string :=
  if negb (truthy (collections cb))
  then Ok "❌ Collections not loaded. Please restart the chatbot."
  else
    let output := ["📚 **Available Collections:**" ++ nl] in
    first20 <- slice (collections cb) 20 ;;
    cs <- iter first20 ;;
    output <- collection_loop cs output ;;
    n <- len (collections cb) ;;
    Ok (Text.join nl
          (if 20 <? n
           then app output
                  [nl ++ "📊 Showing 20 of " ++ str_of_nat n ++ " collections"]
           else output)).

Definition get_help_message : string :=
  strip "
🤖 **AUC Archive Chatbot Help**

**Commands:**
• `list collections` - Show all available collections
• `browse [collection]` - Browse items in a collection
• `search [terms]` - Search across all collections
• `search [terms] in [collection]` - Search within specific collection
• `item [collection] [id]` - Get details for specific item
• `help` - Show this help message

**Examples:**
• `search Ottoman Empire`
• `browse manuscripts`
• `search architecture in photographs`
• `item manuscripts 1234`

**Tips:**
• Use collection names or aliases (shown in parentheses)
• Search terms can be multiple words
• Results include direct links to view items online
        ".

(** What [process_query] decides to do with an input: the method it
    returns the value of, with the arguments it passes. *)
Inductive intent : Type :=
| Help
| ListCollections
| Browse (collection_name : string)
| SearchInCollection (search_terms collection_name : string)
| SearchAll (search_terms : string)
| ItemDetail (collection_alias item_id : string).

(** The loop of [process_query] over the first collections *)
Fixpoint named_collection (user_input : string) (cs : list json)
  : result (option string) :=
  match cs with
  | [] => Ok None
  | collection :: cs' =>
      name <- get collection "name" (JStr "") ;;
      collection_name <- Py.lower name ;;
      if negb (collection_name =? "")%string
         && contains collection_name user_input
      then
        a <- get collection "alias" (JStr "") ;;
        alias <- Py.lstrip_slash a ;;
        Ok (Some alias)
      else named_collection user_input cs'
  end.

(** [for collection in self.collections[:10]: ...]: the alias that the loop
    returns a call for, if any *)
Definition named_among_first (cb : chatbot) (user_input : string)
  : result (option string) :=
  first10 <- slice (collections cb) 10 ;;
  cs <- iter first10 ;;
  named_collection user_input cs.

(** [process_query] after its first line, up to the call it ends in;
    [user_input] is stripped and in lower case. *)
Definition resolve_intent (cb : chatbot) (user_input : string)
  : result intent :=
  if existsb (String.eqb user_input) ["help"; "?"; "commands"]
  then Ok Help
  else if contains "collections" user_input
          || contains "list collections" user_input
  then Ok ListCollections
  else
    match Regex.search Regex.browse_re user_input with
    | Some g => Ok (Browse (strip (Regex.group 1 g)))
    | None =>
        hit <- named_among_first cb user_input ;;
        match hit with
        | Some alias => Ok (Browse alias)
        | None =>
            match Regex.search Regex.search_in_re user_input with
            | Some g =>
                Ok (SearchInCollection (strip (Regex.group 1 g))
                                       (strip (Regex.group 2 g)))
            | None =>
                if startswith "search " user_input
                then Ok (SearchAll (strip (drop 7 user_input)))
                else
                  match Regex.search Regex.item_re user_input with
                  | Some g =>
                      Ok (ItemDetail (Regex.group 1 g) (Regex.group 2 g))
                  | None => Ok (SearchAll user_input)
                  end
            end
        end
    end.

(** The call that [process_query] ends in *)
Definition dispatch (cb : chatbot) (i : intent) : M string :=
  match i with
  | Help => ret get_help_message
  | ListCollections => lift (list_collections cb)
  | Browse collection_name => browse_collection cb collection_name
  | SearchInCollection search_terms collection_name =>
      search_in_collection cb search_terms collection_name
  | SearchAll search_terms => search_all_collections cb search_terms
  | ItemDetail collection_alias item_id =>
      get_item_details collection_alias item_id
  end.

Definition process_query (cb : chatbot) (user_input : string) : M string :=
  let user_input := Text.lower (strip user_input) in
  i <~ lift (resolve_intent cb user_input) ;;
  dispatch cb i.

(* ================================================================= *)
(** ** Notions used in the statements *)



(** The list of matches [l] starts with [o]: [o] is the match reported. *)
Definition first_is (l : list Regex.outcome) (o : Regex.outcome) : Prop :=
  exists tl, l = o :: tl.

(** The text [s] is empty or starts with a character outside class [p]. *)
Definition stops (p : ascii -> bool) (s : string) : Prop :=
  match s with
  | EmptyString => True
  | String c _ => p c = false
  end.

(** A character that is not white space. *)
Definition nonspace (c : ascii) : bool := negb (is_space c).


(** The input matches a key of the index one way or the other. *)
Definition overlaps (name key : string) : bool :=
  contains name key || contains key name.

(** The display name of a loaded collection: the string under ["name"],
    empty when the key is missing. *)
Definition display_name (c : json) : option string :=
  match c with
  | JDict d =>
      match lookup "name" d with
      | None => Some ""
      | Some (JStr n) => Some n
      | Some _ => None
      end
  | _ => None
  end.

(** The alias of a loaded collection as the service gave it: the string
    under ["alias"], empty when the key is missing. *)
Definition alias_of (c : json) : option string :=
  match c with
  | JDict d =>
      match lookup "alias" d with
      | None => Some ""
      | Some (JStr a) => Some a
      | Some _ => None
      end
  | _ => None
  end.


(** The value of the first of [keys] that the item has, [default] when
    it has none of them. *)
Fixpoint first_present (d : list (string * json)) (keys : list string)
  (default : json) : json :=
  match keys with
  | [] => default
  | k :: keys' =>
      match lookup k d with
      | Some v => v
      | None => first_present d keys' default
      end
  end.

(** A labelled line for a field that has a value, nothing otherwise. *)
Definition optional_line (label : string) (v : json) : list string :=
  if truthy v then [label ++ str_of v] else [].

(** The optional fields of an item, in the order of display, each with its
    label and its keys in the order of preference. *)
Definition item_fields : list (string * list string) :=
  [("**Date:** ", ["date"]);
   ("**Creator:** ", ["creato"; "creator"]);
   ("**Subject:** ", ["subjec"; "subject"]);
   ("**Description:** ", ["descri"; "description"]);
   ("**Format:** ", ["format"; "type"]);
   ("**Rights:** ", ["rights"])].

(** The lines of the details of an item, after the words of the
    specification: the title, the optional fields, the link. *)
Definition item_details_lines (d : list (string * json))
  (collection_alias : string) : list string :=
  app
    [("📄 **Item Details:**" ++ nl);
     ("**Title:** " ++ str_of (first_present d ["title"] (JStr "Untitled")))]
    (app
       (flat_map
          (fun f : string * list string =>
             optional_line (fst f) (first_present d (snd f) (JStr "")))
          item_fields)
       (let pointer := first_present d ["dmrecord"; "pointer"] (JStr "") in
        if truthy pointer
        then [nl ++ "🔗 **View Item:** "
                ++ item_url (Text.lstrip_slash collection_alias) pointer]
        else [])).

(** A record that the result loops can render: a dict whose collection,
    when given, is a string. *)
Definition wf_record (r : json) : bool :=
  match r with
  | JDict d =>
      match lookup "collection" d with
      | None | Some (JStr _) => true
      | Some _ => false
      end
  | _ => false
  end.

(** The total of the pager of a payload, [n] when the pager or its total
    is missing; nothing when the pager is not a dict. *)
Definition pager_total (d : list (string * json)) (n : nat) : option json :=
  match lookup "pager" d with
  | None => Some (JInt (Z.of_nat n))
  | Some (JDict p) =>
      Some (match lookup "total" p with
            | Some v => v
            | None => JInt (Z.of_nat n)
            end)
  | Some _ => None
  end.

(** A value that compares with an integer. *)
Definition as_count (v : json) : option Z :=
  match v with
  | JInt z => Some z
  | JBool b => Some (if b then 1 else 0)%Z
  | _ => None
  end.

Definition search_header (collection_name : json) : string :=
  if truthy collection_name
  then "🔍 Search results from '" ++ str_of collection_name ++ "':" ++ nl
  else "🔍 Search results:" ++ nl.

Definition summary_line (shown : nat) (total : json) : string :=
  "📊 Showing " ++ str_of_nat shown ++ " of " ++ str_of total
    ++ " total results".

(** [enumerate(records, i)] *)
Definition enumerate (i : nat) (records : list json) : list (nat * json) :=
  combine (seq i (List.length records)) records.

(** A search payload whose fields, where present, have the types that
    [format_search_results] works on: a list of renderable records, a dict
    for the pager, a number for its total. *)
Definition well_typed_results (d : list (string * json)) : bool :=
  match lookup "error" d with
  | Some _ => true
  | None =>
      match lookup "records" d with
      | None => true
      | Some v =>
          negb (truthy v)
          || match v with
             | JList recs =>
                 forallb wf_record (firstn 10 recs)
                 && match pager_total d 0 with
                    | Some total =>
                        match as_count total with
                        | Some _ => true
                        | None => false
                        end
                    | None => false
                    end
             | _ => false
             end
      end
  end.

(** A loaded collection that the loops over the collections can handle:
    a dict whose alias and name, where given, are strings. *)
Definition wf_collection (c : json) : bool :=
  match alias_of c, display_name c with
  | Some _, Some _ => true
  | _, _ => false
  end.

Definition raw_alias (c : json) : string :=
  match alias_of c with Some a => a | None => "" end.

Definition shown_name (c : json) : string :=
  match display_name c with Some n => n | None => "" end.

(** The request of [search_items(alias, terms, max_records=n)] *)
Definition search_url (alias terms : string) (max_records : Z) : string :=
  api_url ++ "?q=dmQuery/" ++ alias ++ "/CISOSEARCHALL^" ++ terms
    ++ "^any^and/title!date!subjec!descri/nosort/" ++ str_of_Z max_records
    ++ "/1/0/0/0/0/0/0/json".

(** A reply to a search that the first loop of [search_all_collections]
    can handle: a dict whose records, if any, come as a list. *)
Definition wf_reply (v : json) : bool :=
  match v with
  | JDict d =>
      match lookup "records" d with
      | None => true
      | Some recs =>
          negb (truthy recs)
          || match recs with JList _ => true | _ => false end
      end
  | _ => false
  end.

Definition records_of (v : json) : list json :=
  match v with
  | JDict d =>
      match lookup "records" d with
      | Some (JList rs) => rs
      | _ => []
      end
  | _ => []
  end.

(** Among [cs], the collections with a non-empty identifier. *)
Definition identified (cs : list json) : list json :=
  filter (fun c => negb (raw_alias c =? "")%string) cs.

(** The reply of the service to the search of [terms] in [c], five records
    at most. *)
Definition reply_to (terms : string) (c : json) : json :=
  http_get (search_url (raw_alias c) terms 5).

Definition has_records (terms : string) (c : json) : bool :=
  match records_of (reply_to terms c) with [] => false | _ :: _ => true end.

(** The collections that a search of all collections queries: of the
    first five loaded, those with an identifier. *)
Definition queried (cols : list json) : list json :=
  identified (firstn 5 cols).




(** An identifier without a leading path separator. *)
Definition clean (alias : string) : bool := negb (startswith "/" alias).

(** *** Sample data

    A small archive, in the shape of the replies of the service, for the
    examples below. *)

Definition rare_books : json :=
  JDict [("alias", JStr "/p15795coll7"); ("name", JStr "Rare Books");
         ("secondary", JStr "0")].

Definition maps : json :=
  JDict [("alias", JStr "/maps"); ("name", JStr "Maps")].

Definition sample_list : list json := [rare_books; maps].

Definition sample_collections : json := JList sample_list.

Definition sample_record : json :=
  JDict [("collection", JStr "/maps"); ("pointer", JInt 12);
         ("title", JStr "Cairo 1920"); ("date", JStr "1920")].

Definition sample_fields : list (string * json) :=
  [("records", JList [sample_record]);
   ("pager", JDict [("total", JInt 25)])].

Definition sample_reply : json := JDict sample_fields.

Definition sample_item : list (string * json) :=
  [("title", JStr "Cairo 1920"); ("creator", JStr "Long name");
   ("creato", JStr "Short code"); ("subjec", JDict []);
   ("dmrecord", JStr "12")].

Definition empty_reply : json :=
  JDict [("records", JList []); ("pager", JDict [("total", JInt 0)])].

(** A service that holds the sample collections and answers every query
    with the sample record. *)
Definition sample_service (url : string) : json :=
  if contains "dmGetCollectionList" url then sample_collections
  else sample_reply.

(** The same, with records in the maps only. *)
Definition maps_service (url : string) : json :=
  if contains "dmGetCollectionList" url then sample_collections
  else if contains "dmQuery//maps/" url then sample_reply
  else empty_reply.

(** A stand-in for the text that Python gives for lists and dicts. *)
Definition sample_repr (v : json) : string := "...".

(** The chatbot after [initialize] on the sample service. *)
Definition sample_bot : chatbot :=
  {| collections := sample_collections;
     collection_lookup :=
       [("p15795coll7", "p15795coll7"); ("rare books", "p15795coll7");
        ("maps", "maps")] |}.

(** The number of white space characters of a text. *)
Fixpoint count_space (s : string) : nat :=
  match s with
  | EmptyString => 0
  | String c s' => (if is_space c then 1 else 0) + count_space s'
  end.

(** One of the words that ask for help. *)
Definition help_word (u : string) : bool :=
  existsb (String.eqb u) ["help"; "?"; "commands"].

(** The computation [m] only adds requests to the log, [n] at most. *)
Definition sends {A : Type} (m : M A) (n : nat) : Prop :=
  forall log, exists new,
    snd (m log) = app log new /\ List.length new <= n.

(** The requests that the call for an intent may issue. *)
Definition budget (i : intent) : nat :=
  match i with
  | Help | ListCollections => 0
  | Browse _ | SearchInCollection _ _ | ItemDetail _ _ => 1
  | SearchAll _ => 5
  end.

(** The keys that [initialize] writes for a collection: its stripped
    alias and its name, in lower case, when the alias is not empty. *)
Definition keys_of (c : json) : list string :=
  let alias := Text.lstrip_slash (raw_alias c) in
  if (alias =? "")%string then []
  else [Text.lower alias; Text.lower (shown_name c)].

(** An entry of the index as [initialize] makes them: a key in lower
    case, an identifier that is not empty and has no leading separator. *)
Definition entry_ok (kv : string * string) : Prop :=
  Text.lower (fst kv) = fst kv /\ snd kv <> "" /\ clean (snd kv) = true.

(** The request of [get_collections()] *)
Definition collections_url : string :=
  api_url ++ "?q=dmGetCollectionList/json".

(** The request for a function of the service with its parameters:
    the function, the parameters if they make a non-empty text, and the
    format, between slashes. *)
Definition request_url (function : string) (ps : list string) : string :=
  api_url ++ "?q=" ++ function
    ++ (if (Text.join "/" ps =? "")%string then ""
        else "/" ++ Text.join "/" ps)
    ++ "/json".

(** The request of [browse_collection(alias)] *)
Definition browse_url (alias : string) : string :=
  api_url ++ "?q=dmQuery/" ++ alias
    ++ "/0/title!date!subjec/nosort/20/1/0/0/0/0/0/0/json".

(** The request of [get_item_info(alias, item_id)] *)
Definition item_info_url (alias item_id : string) : string :=
  api_url ++ "?q=dmGetItemInfo/" ++ alias ++ "/" ++ item_id ++ "/json".


(** A loaded collection that [list_collections] can render: a dict whose
    alias, when given, is a string. *)
Definition wf_listed (c : json) : bool :=
  match c with
  | JDict d =>
      match lookup "alias" d with
      | None | Some (JStr _) => true
      | Some _ => false
      end
  | _ => false
  end.

(** The reply that [_make_request] builds when the request or the
    decoding fails: a dict with the one key ["error"] and a message. *)
Definition is_error_reply (v : json) : bool :=
  match v with
  | JDict [(k, JStr _)] => (k =? "error")%string
  | _ => false
  end.


(** A service that is out of reach: every request fails. *)
Definition failing_service (url : string) : json :=
  JDict [("error", JStr "API request failed: timed out")].

(** *** The domain of the text operations

    The statements on [lower], [strip], [\s] and [\w] assume that the texts
    put through them are ASCII: the assumption marks the inputs on which
    these operations are Python's. *)

(** A character of the ASCII range. *)
Definition is_ascii (c : ascii) : bool := nat_of_ascii c <? 128.

(** [s.isascii()]: a text made of ASCII characters only.  On such a text
    [lower], [strip] and the classes [\s] and [\w] are Python's. *)
Definition isascii (s : string) : bool := all_chars is_ascii s.

(** The display names that [process_query] puts in lower case, those of
    the first ten loaded collections, are ASCII text. *)
Definition ascii_names (cb : chatbot) : bool :=
  match collections cb with
  | JList cols => forallb (fun c => isascii (shown_name c)) (firstn 10 cols)
  | _ => true
  end.

(** The alias and the display name of a collection, which [initialize]
    puts in lower case, are ASCII text. *)
Definition ascii_collection (c : json) : bool :=
  isascii (raw_alias c) && isascii (shown_name c).




(* ================================================================= *)
(** ** Properties of the text operations *)

Lemma lower_char_idem (c : ascii) : lower_char (lower_char c) = lower_char c.
Proof. destruct c as [[] [] [] [] [] [] [] []]; reflexivity. Qed.


Lemma lower_idem (s : string) : Text.lower (Text.lower s) = Text.lower s.
Proof.
  induction s as [|c s IH]; simpl; [reflexivity|].
  now rewrite lower_char_idem, IH.
Qed.

Lemma lower_empty (s : string) : Text.lower s = "" -> s = "".
Proof. destruct s; simpl; [reflexivity | discriminate]. Qed.

















Lemma startswith_app (p s : string) :
  startswith p s = true -> s = p ++ drop (String.length p) s.
Proof.
  revert s; induction p as [|a p IH]; intros s H; simpl.
  - reflexivity.
  - destruct s as [|b s]; simpl in H; [discriminate|].
    apply andb_true_iff in H as [Hab Hs].
    apply Ascii.eqb_eq in Hab. subst b. simpl. f_equal. now apply IH.
Qed.

Lemma startswith_prefix (p s : string) : startswith p (p ++ s) = true.
Proof.
  induction p as [|a p IH]; simpl; [reflexivity|].
  now rewrite Ascii.eqb_refl, IH.
Qed.

Lemma drop_app (p s : string) : drop (String.length p) (p ++ s) = s.
Proof. induction p as [|a p IH]; simpl; [reflexivity | exact IH]. Qed.

Lemma append_assoc (a b c : string) : (a ++ b) ++ c = a ++ b ++ c.
Proof. induction a as [|x a IH]; simpl; [reflexivity | now rewrite IH]. Qed.


Lemma contains_startswith (sub s : string) :
  startswith sub s = true -> contains sub s = true.
Proof. intros H. destruct s; simpl; now rewrite H. Qed.

Lemma contains_app (sub pre post : string) :
  contains sub (pre ++ sub ++ post) = true.
Proof.
  induction pre as [|c pre IH]; simpl.
  - apply contains_startswith, startswith_prefix.
  - rewrite IH. apply orb_true_r.
Qed.

Lemma contains_split (sub s : string) :
  contains sub s = true -> exists pre post, s = pre ++ sub ++ post.
Proof.
  induction s as [|c s IH]; simpl; intros H.
  - rewrite orb_false_r in H. destruct sub; [|discriminate].
    now exists "", "".
  - apply orb_true_iff in H as [H|H].
    + exists "", (drop (String.length sub) (String c s)).
      now apply startswith_app in H.
    + destruct (IH H) as (pre & post & ->).
      now exists (String c pre), post.
Qed.

(* ================================================================= *)
(** ** Properties of the matcher *)

Import Regex.

Lemma runs_sound (p : ascii -> bool) (s m r : string) :
  In (m, r) (runs p s) -> s = m ++ r /\ m <> "" /\ all_chars p m = true.
Proof.
  revert m r; induction s as [|c s IH]; simpl; intros m r H; [easy|].
  destruct (p c) eqn:Ec; [|easy].
  destruct H as [H|H].
  - inversion H; subst. simpl. now rewrite Ec.
  - apply in_map_iff in H as ([m' r'] & E & Hin). simpl in E.
    inversion E; subst. destruct (IH _ _ Hin) as (-> & _ & Hall).
    simpl. now rewrite Ec, Hall.
Qed.

Lemma runs_complete (p : ascii -> bool) (m r : string) :
  m <> "" -> all_chars p m = true -> In (m, r) (runs p (m ++ r)).
Proof.
  induction m as [|c m IH]; [easy|]. intros _ H. simpl in *.
  apply andb_true_iff in H as [Hc Hm]. rewrite Hc.
  destruct m as [|d m]; [now left|]. right.
  apply in_map_iff. exists (String d m, r). split; [reflexivity|].
  now apply IH.
Qed.

(** The longest run comes last when what follows is outside the class. *)
Lemma runs_exact (p : ascii -> bool) (ws s : string) :
  ws <> "" -> all_chars p ws = true -> stops p s ->
  exists l, runs p (ws ++ s) = (l ++ [(ws, s)])%list.
Proof.
  intros Hne Hall Hs. induction ws as [|c ws IH]; [easy|]. simpl in *.
  apply andb_true_iff in Hall as [Hc Hws]. rewrite Hc.
  destruct ws as [|d ws].
  - exists []. simpl. destruct s as [|e s]; simpl in *; [reflexivity|].
    now rewrite Hs.
  - destruct (IH ltac:(easy) Hws) as [l El]. rewrite El.
    exists ((String c "", String d ws ++ s)
              :: map (fun mr => (String c (fst mr), snd mr)) l).
    simpl. now rewrite map_app.
Qed.


Lemma rep_sound (greedy : bool) (p : ascii -> bool) (s : string)
  (o : outcome) :
  In o (matches (Rep greedy p) s) ->
  exists m r, o = (m, r, []) /\ s = m ++ r /\ m <> ""
              /\ all_chars p m = true.
Proof.
  simpl. intros H. apply in_map_iff in H as ([m r] & <- & Hin).
  exists m, r. split; [reflexivity|].
  apply runs_sound. destruct greedy; [now apply in_rev in Hin | exact Hin].
Qed.

Lemma rep_complete (greedy : bool) (p : ascii -> bool) (m r : string) :
  m <> "" -> all_chars p m = true ->
  In (m, r, []) (matches (Rep greedy p) (m ++ r)).
Proof.
  intros Hne Hall. simpl. apply in_map_iff. exists (m, r).
  split; [reflexivity|]. pose proof (runs_complete p m r Hne Hall) as H.
  destruct greedy; [now apply in_rev in H | exact H].
Qed.

Lemma str_sound (lit s : string) (o : outcome) :
  In o (matches (Str lit) s) -> o = (lit, drop (String.length lit) s, [])
                                /\ s = lit ++ drop (String.length lit) s.
Proof.
  simpl. destruct (startswith lit s) eqn:E; [|easy].
  intros [<-|[]]. split; [reflexivity | now apply startswith_app].
Qed.

Lemma seq_sound (r1 r2 : regex) (s : string) (o : outcome) :
  In o (matches (Seq r1 r2) s) ->
  exists m1 s1 g1 m2 s2 g2,
    In (m1, s1, g1) (matches r1 s) /\ In (m2, s2, g2) (matches r2 s1)
    /\ o = (m1 ++ m2, s2, (g1 ++ g2)%list).
Proof.
  simpl. intros H. apply in_flat_map in H as ([[m1 s1] g1] & H1 & H).
  apply in_map_iff in H as ([[m2 s2] g2] & <- & H2).
  now exists m1, s1, g1, m2, s2, g2.
Qed.

Lemma seq_complete (r1 r2 : regex) (s : string)
  (m1 s1 : string) (g1 : list string) (m2 s2 : string) (g2 : list string) :
  In (m1, s1, g1) (matches r1 s) -> In (m2, s2, g2) (matches r2 s1) ->
  In (m1 ++ m2, s2, (g1 ++ g2)%list) (matches (Seq r1 r2) s).
Proof.
  intros H1 H2. simpl. apply in_flat_map. exists (m1, s1, g1).
  split; [exact H1|]. apply in_map_iff. now exists (m2, s2, g2).
Qed.

Lemma grp_sound (r : regex) (s : string) (o : outcome) :
  In o (matches (Grp r) s) ->
  exists m s' g, In (m, s', g) (matches r s) /\ o = (m, s', m :: g).
Proof.
  simpl. intros H. apply in_map_iff in H as ([[m s'] g] & <- & H).
  now exists m, s', g.
Qed.

Lemma grp_complete (r : regex) (s m s' : string) (g : list string) :
  In (m, s', g) (matches r s) -> In (m, s', m :: g) (matches (Grp r) s).
Proof.
  intros H. simpl. apply in_map_iff. now exists (m, s', g).
Qed.





(** [re.search] finds a match exactly when some suffix of the text has
    one. *)
Lemma search_none (r : regex) (s : string) :
  search r s = None <-> forall pre t, s = pre ++ t -> matches r t = [].
Proof.
  induction s as [|c s IH]; simpl.
  - destruct (matches r "") as [|[[m rest] g] tl] eqn:E.
    + split; [|easy]. intros _ pre t Ht.
      destruct pre; [simpl in Ht; now subst | discriminate].
    + split; [easy|]. intros H. now rewrite (H "" "") in E.
  - destruct (matches r (String c s)) as [|[[m rest] g] tl] eqn:E.
    + rewrite IH. split; intros H pre t Ht.
      * destruct pre as [|d pre]; simpl in Ht; [now subst|].
        inversion Ht; subst. now apply (H pre).
      * apply (H (String c pre)). simpl. now rewrite Ht.
    + split; [easy|]. intros H. now rewrite (H "" (String c s)) in E.
Qed.

Lemma search_first (r : regex) (s m rest : string) (g : list string) :
  first_is (matches r s) (m, rest, g) -> search r s = Some g.
Proof. intros [tl E]. destruct s; simpl; now rewrite E. Qed.

Lemma first_str (lit s : string) :
  first_is (matches (Str lit) (lit ++ s)) (lit, s, []).
Proof.
  exists []. simpl. now rewrite startswith_prefix, drop_app.
Qed.

Lemma first_rep_greedy (p : ascii -> bool) (ws s : string) :
  ws <> "" -> all_chars p ws = true -> stops p s ->
  first_is (matches (Rep true p) (ws ++ s)) (ws, s, []).
Proof.
  intros Hne Hall Hs. destruct (runs_exact p ws s Hne Hall Hs) as [l El].
  simpl. rewrite El, rev_app_distr. simpl. now eexists.
Qed.

Lemma first_grp (r : regex) (s m s' : string) (g : list string) :
  first_is (matches r s) (m, s', g) ->
  first_is (matches (Grp r) s) (m, s', m :: g).
Proof. intros [tl E]. simpl. rewrite E. simpl. now eexists. Qed.

Lemma first_seq (r1 r2 : regex) (s : string)
  (m1 s1 : string) (g1 : list string) (m2 s2 : string) (g2 : list string) :
  first_is (matches r1 s) (m1, s1, g1) ->
  first_is (matches r2 s1) (m2, s2, g2) ->
  first_is (matches (Seq r1 r2) s) (m1 ++ m2, s2, (g1 ++ g2)%list).
Proof.
  intros [tl1 E1] [tl2 E2]. simpl. rewrite E1. simpl. rewrite E2. simpl.
  now eexists.
Qed.


(** *** The three patterns *)



Lemma stops_space_nonspace (s : string) :
  s <> "" -> all_chars nonspace s = true -> stops is_space s.
Proof.
  destruct s as [|c s]; [easy|]. intros _ H. simpl in *.
  apply andb_true_iff in H as [Hc _]. unfold nonspace in Hc.
  now apply negb_true_iff in Hc.
Qed.







(** [search\s+(.+?)\s+in\s+(.+)] matches at the start of [t] exactly when
    [t] is "search", white space, some text of the line, white space, "in",
    white space, and one more character of the line. *)
Lemma search_in_re_matches (t : string) :
  matches search_in_re t <> [] <->
  exists ws1 x ws2 ws3 c post,
    t = "search" ++ ws1 ++ x ++ ws2 ++ "in" ++ ws3 ++ String c post
    /\ (ws1 <> "" /\ all_chars is_space ws1 = true)
    /\ (x <> "" /\ all_chars dot x = true)
    /\ (ws2 <> "" /\ all_chars is_space ws2 = true)
    /\ (ws3 <> "" /\ all_chars is_space ws3 = true)
    /\ dot c = true.
Proof.
  unfold search_in_re. split.
  - intros H. destruct (matches _ t) as [|o tl] eqn:E; [easy|]. clear H.
    assert (Hin : In o (o :: tl)) by now left. rewrite <- E in Hin. clear E.
    apply seq_sound in Hin as (u1 & s1 & u2 & u3 & u4 & u5 & K1 & K & _).
    apply str_sound in K1 as [E1 Ht].
    remember (drop (String.length "search") t) as d1 eqn:Ed1.
    injection E1 as _ -> _.
    apply seq_sound in K as (u6 & s2 & u7 & u8 & u9 & u10 & K2 & K & _).
    apply rep_sound in K2 as (ws1 & r2 & E2 & Hs1 & W1).
    injection E2 as _ -> _.
    apply seq_sound in K as (u11 & s3 & u12 & u13 & u14 & u15 & K3 & K & _).
    apply grp_sound in K3 as (u16 & u17 & u18 & K3 & E3).
    apply rep_sound in K3 as (x & r3 & E3' & Hs2 & X).
    injection E3' as -> -> ->. injection E3 as _ -> _.
    apply seq_sound in K as (u19 & s4 & u20 & u21 & u22 & u23 & K4 & K & _).
    apply rep_sound in K4 as (ws2 & r4 & E4 & Hs3 & W2).
    injection E4 as _ -> _.
    apply seq_sound in K as (u24 & s5 & u25 & u26 & u27 & u28 & K5 & K & _).
    apply str_sound in K5 as [E5 Hs4].
    remember (drop (String.length "in") r4) as d5 eqn:Ed5.
    injection E5 as _ -> _.
    apply seq_sound in K as (u29 & s6 & u30 & u31 & u32 & u33 & K6 & K & _).
    apply rep_sound in K6 as (ws3 & r6 & E6 & Hs5 & W3).
    injection E6 as _ -> _.
    apply grp_sound in K as (u34 & u35 & u36 & K & _).
    apply rep_sound in K as (m & r7 & _ & Hs6 & Hm & Hdot).
    destruct m as [|c m]; [easy|]. simpl in Hdot.
    apply andb_true_iff in Hdot as [Hc _].
    destruct W1 as [W1 W1'], X as [X X'], W2 as [W2 W2'], W3 as [W3 W3'].
    exists ws1, x, ws2, ws3, c, (m ++ r7). repeat split; trivial.
    rewrite Ht, Hs1, Hs2, Hs3, Hs4, Hs5, Hs6. reflexivity.
  - intros (ws1 & x & ws2 & ws3 & c & post & -> & [N1 A1] & [Nx Ax]
            & [N2 A2] & [N3 A3] & Hc) H.
    assert (Hin :
      In ("search" ++ ws1 ++ x ++ ws2 ++ "in" ++ ws3 ++ String c "", post,
          ([] ++ [] ++ [x] ++ [] ++ [] ++ [] ++ [String c ""])%list)
         (matches
            (Seq (Str "search")
               (Seq (Rep true is_space)
                  (Seq (Grp (Rep false dot))
                     (Seq (Rep true is_space)
                        (Seq (Str "in")
                           (Seq (Rep true is_space)
                                (Grp (Rep true dot))))))))
            ("search" ++ ws1 ++ x ++ ws2 ++ "in" ++ ws3 ++ String c post))).
    { apply seq_complete
        with (s1 := ws1 ++ x ++ ws2 ++ "in" ++ ws3 ++ String c post).
      { destruct (first_str "search"
                    (ws1 ++ x ++ ws2 ++ "in" ++ ws3 ++ String c post))
          as [tl E].
        rewrite E. now left. }
      apply seq_complete with (s1 := x ++ ws2 ++ "in" ++ ws3 ++ String c post);
        [now apply rep_complete|].
      apply seq_complete with (s1 := ws2 ++ "in" ++ ws3 ++ String c post);
        [apply grp_complete; now apply rep_complete|].
      apply seq_complete with (s1 := "in" ++ ws3 ++ String c post);
        [now apply rep_complete|].
      apply seq_complete with (s1 := ws3 ++ String c post).
      { destruct (first_str "in" (ws3 ++ String c post)) as [tl E].
        rewrite E. now left. }
      apply seq_complete with (s1 := String c post);
        [now apply rep_complete|].
      apply grp_complete.
      apply (rep_complete true dot (String c "") post); [easy|].
      simpl. now rewrite Hc. }
    rewrite H in Hin. exact Hin.
Qed.

(* ================================================================= *)
(** ** The claims *)

(** *** Normalisation of the input *)






(** *** Resolution of collection names *)


Lemma partial_match_none (n : string) (l : list (string * string)) :
  (forall k a, In (k, a) l -> overlaps n k = false) ->
  partial_match n l = None.
Proof.
  induction l as [|[k a] l IH]; simpl; intros H; [reflexivity|].
  pose proof (H k a ltac:(now left)) as Hk. unfold overlaps in Hk.
  rewrite Hk. apply IH. intros k' a' Hin. apply (H k' a'). now right.
Qed.

Lemma partial_match_some (n : string) (l : list (string * string))
  (a : string) :
  partial_match n l = Some a ->
  exists l1 k l2,
    l = (l1 ++ (k, a) :: l2)%list /\ overlaps n k = true
    /\ forall k' a', In (k', a') l1 -> overlaps n k' = false.
Proof.
  induction l as [|[k b] l IH]; simpl; [discriminate|].
  destruct (contains n k || contains k n) eqn:E.
  - intros H; inversion H; subst. exists [], k, l. now repeat split.
  - intros H. destruct (IH H) as (l1 & k' & l2 & -> & Hk' & Hl1).
    exists ((k, b) :: l1), k', l2. repeat split; trivial.
    intros k'' a'' [Hin|Hin]; [now inversion Hin; subst|].
    now apply (Hl1 k'' a'').
Qed.


(** *** The order of the rules *)

Lemma contains_weaken (a b s : string) :
  contains (a ++ b) s = true -> contains b s = true.
Proof.
  intros H. apply contains_split in H as (pre & post & ->).
  rewrite append_assoc, <- (append_assoc pre a). apply contains_app.
Qed.

Lemma list_rule_off (u : string) :
  contains "collections" u = false ->
  contains "collections" u || contains "list collections" u = false.
Proof.
  intros H. rewrite H. simpl.
  destruct (contains "list collections" u) eqn:E; [|reflexivity].
  apply (contains_weaken "list " "collections") in E. congruence.
Qed.


Lemma get_display_name (c : json) (n : string) :
  display_name c = Some n -> get c "name" (JStr "") = Ok (JStr n).
Proof.
  destruct c as [| | | |l|d]; simpl; try discriminate.
  destruct (lookup "name" d) as [[| | |s| |]|]; try discriminate;
    now intros [= ->].
Qed.

Lemma get_alias_of (c : json) (a : string) :
  alias_of c = Some a -> get c "alias" (JStr "") = Ok (JStr a).
Proof.
  destruct c as [| | | |l|d]; simpl; try discriminate.
  destruct (lookup "alias" d) as [[| | |s| |]|]; try discriminate;
    now intros [= ->].
Qed.





(** *** The formatters *)

Lemma search_result_lines_ok (i : nat) (r : json) :
  wf_record r = true -> exists b, search_result_lines i r = Ok b.
Proof.
  destruct r as [| | | |l|d]; simpl; try discriminate.
  unfold search_result_lines. cbn [get bind].
  destruct (lookup "collection" d) as [[| | |s| |]|]; try discriminate;
    intros _; cbn [Py.lstrip_slash bind]; now eexists.
Qed.

Lemma search_result_loop_blocks (rs : list json) :
  forall (i : nat) (out : list string),
    forallb wf_record rs = true ->
    exists blocks,
      List.length blocks = List.length rs
      /\ Forall2 (fun ir b => search_result_lines (fst ir) (snd ir) = Ok b)
                 (enumerate i rs) blocks
      /\ search_result_loop i rs out = Ok (app out (concat blocks)).
Proof.
  induction rs as [|r rs IH]; intros i out H.
  - exists []. simpl. now rewrite app_nil_r.
  - simpl in H. apply andb_true_iff in H as [Hr Hrs].
    destruct (search_result_lines_ok i r Hr) as [b Hb].
    destruct (IH (S i) (app out b) Hrs) as (blocks & Hlen & Hall & Hloop).
    exists (b :: blocks). split; [simpl; now rewrite Hlen|]. split.
    + unfold enumerate. simpl. constructor; [exact Hb | exact Hall].
    + simpl. rewrite Hb. cbn [bind]. rewrite Hloop. now rewrite app_assoc.
Qed.

Lemma gt_as_count (total : json) (t : Z) (n : Z) :
  as_count total = Some t -> gt total n = Ok (n <? t)%Z.
Proof.
  destruct total as [|b|z| | |]; simpl; try discriminate;
    now intros [= <-].
Qed.

(** The body of [format_search_results] on a payload that holds records. *)
Lemma search_results_output_blocks (d : list (string * json)) (name : json)
  (recs : list json) (total : json) (t : Z) :
  lookup "records" d = Some (JList recs) ->
  forallb wf_record (firstn 10 recs) = true ->
  pager_total d (List.length (firstn 10 recs)) = Some total ->
  as_count total = Some t ->
  let shown := firstn 10 recs in
  exists blocks,
    List.length blocks = List.length shown
    /\ Forall2 (fun ir b => search_result_lines (fst ir) (snd ir) = Ok b)
               (enumerate 1 shown) blocks
    /\ search_results_output (JDict d) name
       = Ok (search_header name
               :: app (concat blocks)
                      (if (Z.of_nat (List.length shown) <? t)%Z
                       then [summary_line (List.length shown) total]
                       else [])).
Proof.
  intros Hrecs Hwf Htotal Hcount shown.
  destruct (search_result_loop_blocks shown 1
              (if truthy name
               then ["🔍 Search results from '" ++ str_of name ++ "':" ++ nl]
               else ["🔍 Search results:" ++ nl]) Hwf)
    as (blocks & Hlen & Hall & Hloop).
  exists blocks. split; [exact Hlen|]. split; [exact Hall|].
  unfold search_results_output. cbn [getitem]. rewrite Hrecs.
  cbn [bind slice iter len]. fold shown. rewrite Hloop. cbn [bind get].
  unfold pager_total in Htotal. fold shown in Htotal.
  destruct (lookup "pager" d) as [[| | | | |p]|]; try discriminate;
    injection Htotal as Htotal; cbn [get bind]; rewrite Htotal;
    rewrite (gt_as_count total t _ Hcount); cbn [bind];
    unfold search_header, summary_line;
    destruct (truthy name), (Z.of_nat (List.length shown) <? t)%Z;
    simpl; try rewrite app_nil_r; reflexivity.
Qed.

Lemma firstn_length_le {A : Type} (n : nat) (l : list A) :
  List.length (firstn n l) <= n.
Proof. rewrite length_firstn. lia. Qed.

(** C4, as amended.  On a payload that is not an error and holds at least
    one record, [format_search_results] renders the first ten records at
    most, one block of lines for each, and ends with the "Showing X of Y"
    line exactly when the total of the pager exceeds the number of records
    rendered. *)
Theorem format_search_results_limit (d : list (string * json)) (name : json)
  (recs : list json) (total : json) (t : Z) :
  lookup "error" d = None ->
  lookup "records" d = Some (JList recs) -> recs <> [] ->
  forallb wf_record (firstn 10 recs) = true ->
  pager_total d (List.length (firstn 10 recs)) = Some total ->
  as_count total = Some t ->
  let shown := firstn 10 recs in
  exists blocks,
    List.length blocks = List.length shown
    /\ List.length shown <= 10
    /\ Forall2 (fun ir b => search_result_lines (fst ir) (snd ir) = Ok b)
               (enumerate 1 shown) blocks
    /\ format_search_results (JDict d) name
       = Ok (Text.join nl
               (search_header name
                  :: app (concat blocks)
                         (if (Z.of_nat (List.length shown) <? t)%Z
                          then [summary_line (List.length shown) total]
                          else []))).
Proof.
  intros Herr Hrecs Hne Hwf Htotal Hcount shown.
  destruct (search_results_output_blocks d name recs total t
              Hrecs Hwf Htotal Hcount) as (blocks & Hlen & Hall & Hout).
  exists blocks. split; [exact Hlen|].
  split; [apply firstn_length_le|]. split; [exact Hall|].
  unfold format_search_results. cbn [contains_key]. rewrite Herr.
  cbn [bind get]. rewrite Hrecs.
  destruct recs as [|r recs]; [easy|]. cbn [truthy negb].
  fold shown in Hout. now rewrite Hout.
Qed.

Lemma item_details_output_lines (d : list (string * json)) (alias : string) :
  item_details_output (JDict d) alias = Ok (item_details_lines d alias).
Proof.
  unfold item_details_output, item_details_lines, item_fields, optional_line.
  cbn [get bind flat_map first_present fst snd].
  repeat match goal with
         | |- context [truthy ?v] => destruct (truthy v)
         end; reflexivity.
Qed.

(** C5, as amended.  On an item payload that is not an error,
    [format_item_details] renders the title (with the placeholder
    "Untitled" when the payload has none), then the fields date, creator,
    subject, description, format and rights in this order, each taken from
    the first of its keys that the payload has (the short code before the
    long name) and left out when it has none of them or an empty value,
    then the link of the item. *)
Theorem format_item_details_fields (d : list (string * json))
  (alias : string) :
  lookup "error" d = None ->
  format_item_details (JDict d) alias
  = Ok (Text.join nl (item_details_lines d alias)).
Proof.
  intros Herr. unfold format_item_details. cbn [contains_key].
  rewrite Herr. cbn [bind]. now rewrite item_details_output_lines.
Qed.

Lemma pager_total_any (d : list (string * json)) (total0 : json) (t0 : Z)
  (n : nat) :
  pager_total d 0 = Some total0 -> as_count total0 = Some t0 ->
  exists total t, pager_total d n = Some total /\ as_count total = Some t.
Proof.
  unfold pager_total.
  destruct (lookup "pager" d) as [[| | | | |p]|]; try discriminate.
  - destruct (lookup "total" p) as [v|].
    + intros [= <-] H. now exists v, t0.
    + intros _ _. now exists (JInt (Z.of_nat n)), (Z.of_nat n).
  - intros _ _. now exists (JInt (Z.of_nat n)), (Z.of_nat n).
Qed.

(** C8, as amended.  [format_item_details] returns a text on every dict;
    [format_search_results] returns a text on every dict whose fields,
    where present, have the expected types.  A field that is missing never
    makes them fail. *)
Theorem formatters_total (d : list (string * json)) :
  (forall alias, exists text, format_item_details (JDict d) alias = Ok text)
  /\ (forall name,
        well_typed_results d = true ->
        exists text, format_search_results (JDict d) name = Ok text).
Proof.
  split.
  - intros alias. unfold format_item_details. cbn [contains_key].
    destruct (lookup "error" d) as [e|] eqn:Herr; cbn [bind getitem].
    + rewrite Herr. cbn [bind]. now eexists.
    + rewrite item_details_output_lines. cbn [bind]. now eexists.
  - intros name Hwt. unfold format_search_results. cbn [contains_key].
    unfold well_typed_results in Hwt.
    destruct (lookup "error" d) as [e|] eqn:Herr; cbn [bind getitem].
    + rewrite Herr. cbn [bind]. now eexists.
    + cbn [get]. destruct (lookup "records" d) as [v|] eqn:Hrecs;
        cbn [bind]; [|cbn [truthy negb]; now eexists].
      destruct (truthy v) eqn:Hv; cbn [negb]; [|now eexists].
      cbn [negb orb] in Hwt.
      destruct v as [| | | |recs|]; try discriminate.
      apply andb_true_iff in Hwt as [Hwf Hpager].
      destruct (pager_total d 0) as [total0|] eqn:Hp0; [|discriminate].
      destruct (as_count total0) as [t0|] eqn:Hc0; [|discriminate].
      destruct (pager_total_any d total0 t0
                  (List.length (firstn 10 recs)) Hp0 Hc0)
        as (total & t & Hp & Hc).
      destruct (search_results_output_blocks d name recs total t
                  Hrecs Hwf Hp Hc) as (blocks & _ & _ & Hout).
      rewrite Hout. cbn [bind]. now eexists.
Qed.

(** *** Search in all collections *)

Lemma params_nonempty (a rest : string) :
  (a ++ "/" ++ rest =? "")%string = false.
Proof. destruct a; reflexivity. Qed.

Lemma api_search_items_url (a terms : string) (log : list string) :
  api_search_items (JStr a) terms 5 log
  = (Ok (http_get (search_url a terms 5)), app log [search_url a terms 5]).
Proof.
  unfold api_search_items, make_request, mbind, lift, request.
  cbn [Py.join strings bind Text.join String.concat].
  rewrite params_nonempty.
  match goal with
  | |- (Ok (http_get ?u), _) = _ =>
      assert (E : u = search_url a terms 5)
  end.
  { unfold search_url. rewrite !append_assoc. reflexivity. }
  now rewrite E.
Qed.

Lemma wf_collection_fields (c : json) :
  wf_collection c = true ->
  get c "alias" (JStr "") = Ok (JStr (raw_alias c))
  /\ get c "name" (JStr "") = Ok (JStr (shown_name c)).
Proof.
  unfold wf_collection, raw_alias, shown_name.
  destruct (alias_of c) as [a|] eqn:Ea; [|discriminate].
  destruct (display_name c) as [n|] eqn:En; [|discriminate].
  intros _. split; [now apply get_alias_of | now apply get_display_name].
Qed.

(** What the reply to one query adds to the records gathered. *)
Lemma reply_records (v : json) :
  wf_reply v = true ->
  exists recs,
    get v "records" JNull = Ok recs
    /\ (truthy recs = false /\ records_of v = []
        \/ exists r rs,
             recs = JList (r :: rs) /\ records_of v = r :: rs
             /\ getitem v "records" = Ok (JList (r :: rs))).
Proof.
  destruct v as [| | | |l|d]; simpl; try discriminate.
  destruct (lookup "records" d) as [recs|]; intros H.
  - exists recs. split; [reflexivity|].
    destruct recs as [|b|z|s|[|r rs]|[|kv p]]; simpl in *;
      try discriminate; try (now left).
    + destruct b; [discriminate | now left].
    + destruct (z =? 0)%Z; [now left | discriminate].
    + destruct (s =? "")%string; [now left | discriminate].
    + right. now exists r, rs.
  - exists JNull. split; [reflexivity | now left].
Qed.

Lemma search_loop_gathers (terms : string) (cs : list json) :
  forall (all_results searched : list json) (log : list string),
    forallb wf_collection cs = true ->
    forallb (fun c => wf_reply (reply_to terms c)) (identified cs) = true ->
    search_loop terms cs all_results searched log
    = (Ok (app all_results
               (flat_map (fun c => records_of (reply_to terms c))
                         (identified cs)),
           app searched
               (map (fun c => JStr (shown_name c))
                    (filter (has_records terms) (identified cs)))),
       app log (map (fun c => search_url (raw_alias c) terms 5)
                    (identified cs))).
Proof.
  induction cs as [|c cs IH]; intros all_results searched log Hwf Hreplies.
  - simpl. unfold ret. now rewrite !app_nil_r.
  - simpl in Hwf. apply andb_true_iff in Hwf as [Hc Hcs].
    destruct (wf_collection_fields c Hc) as [Ea En].
    cbn [search_loop]. unfold mbind at 1, lift at 1. rewrite Ea.
    unfold mbind at 1, lift at 1. rewrite En.
    unfold identified in *. cbn [filter] in *. cbn [truthy].
    destruct (negb (raw_alias c =? "")%string) eqn:Enz.
    + cbn [forallb] in Hreplies.
      apply andb_true_iff in Hreplies as [Hr Hrs].
      unfold mbind at 1. rewrite api_search_items_url.
      fold (reply_to terms c).
      destruct (reply_records _ Hr) as (recs & Eget & Hcases).
      unfold mbind at 1, lift at 1. rewrite Eget.
      destruct Hcases as [[Hfalsy Hnone]|(r & rs & -> & Hsome & Eitem)].
      * rewrite Hfalsy. rewrite (IH _ _ _ Hcs Hrs).
        assert (Hh : has_records terms c = false)
          by (unfold has_records; now rewrite Hnone).
        cbn [flat_map map filter]. rewrite Hh, Hnone. cbn [app].
        now rewrite <- app_assoc.
      * cbn [truthy]. unfold mbind at 1, lift at 1. rewrite Eitem.
        unfold mbind at 1, lift at 1. cbn [iter].
        rewrite (IH _ _ _ Hcs Hrs).
        assert (Hh : has_records terms c = true)
          by (unfold has_records; now rewrite Hsome).
        cbn [flat_map map filter]. rewrite Hh, Hsome. cbn [map].
        now rewrite <- !app_assoc.
    + now apply IH.
Qed.






(** *** Identifiers and the leading separator *)

Lemma lstrip_slash_clean (s : string) : clean (Text.lstrip_slash s) = true.
Proof.
  induction s as [|c s IH]; [reflexivity|]. simpl.
  destruct (c =? "/")%char eqn:E; [exact IH|].
  unfold clean. cbn [startswith]. now rewrite Ascii.eqb_sym, E.
Qed.

Lemma store_values {A : Type} (P : A -> Prop) (k : string) (v : A)
  (d : list (string * A)) :
  P v -> Forall (fun kv => P (snd kv)) d ->
  Forall (fun kv => P (snd kv)) (store k v d).
Proof.
  intros Hv. induction 1 as [|[k' v'] d Hkv Hd IH]; simpl.
  - now repeat constructor.
  - destruct (k' =? k)%string; constructor; trivial.
Qed.

(** The index that [initialize] builds holds stripped identifiers only. *)
Lemma fill_lookup_clean (cs : list json) :
  forall lk lk',
    Forall (fun kv => clean (snd kv) = true) lk ->
    fill_lookup cs lk = Ok lk' ->
    Forall (fun kv => clean (snd kv) = true) lk'.
Proof.
  induction cs as [|c cs IH]; intros lk lk' Hlk; simpl.
  - now intros [= <-].
  - destruct (get c "alias" (JStr "")) as [a|e]; [|discriminate].
    cbn [bind].
    destruct a as [| | |s| |]; try discriminate. cbn [Py.lstrip_slash bind].
    destruct (get c "name" (JStr "")) as [n|e]; [|discriminate].
    cbn [bind].
    destruct (negb (Text.lstrip_slash s =? "")%string); [|now apply IH].
    destruct (Py.lower n) as [nl'|e]; [|discriminate]. cbn [bind].
    apply IH.
    apply (store_values (fun a => clean a = true));
      [apply lstrip_slash_clean|].
    apply (store_values (fun a => clean a = true));
      [apply lstrip_slash_clean | exact Hlk].
Qed.

Lemma initialize_clean (log log' : list string) (cb : chatbot) (b : bool) :
  initialize new_chatbot log = (Ok (cb, b), log') ->
  Forall (fun kv => clean (snd kv) = true) (collection_lookup cb).
Proof.
  unfold initialize, api_get_collections, make_request.
  unfold mbind, lift, request, ret. cbn [bind].
  replace ("" =? "")%string with true by reflexivity.
  destruct (contains_key "error" _) as [[|]|e]; try discriminate.
  - destruct (getitem _ "error"); [|discriminate].
    intros [= <- _ _]. constructor.
  - destruct (iter _) as [cs|e]; [|discriminate].
    destruct (fill_lookup cs (collection_lookup new_chatbot))
      as [lk|e] eqn:Efill; [|discriminate].
    intros [= <- _ _]. simpl.
    apply (fill_lookup_clean cs [] lk); [constructor | exact Efill].
Qed.

Lemma partial_match_in (n : string) (l : list (string * string))
  (a : string) :
  partial_match n l = Some a -> exists k, In (k, a) l.
Proof.
  intros H. apply partial_match_some in H as (l1 & k & l2 & -> & _).
  exists k. apply in_or_app. right. now left.
Qed.

Lemma lookup_in {A : Type} (k : string) (d : list (string * A)) (v : A) :
  lookup k d = Some v -> exists k', In (k', v) d.
Proof.
  induction d as [|[k' v'] d IH]; simpl; [discriminate|].
  destruct (k' =? k)%string.
  - intros [= ->]. exists k'. now left.
  - intros H. destruct (IH H) as [k'' Hin]. exists k''. now right.
Qed.

(** Hence [find_collection_alias] returns stripped identifiers only. *)
Lemma find_collection_alias_clean (cb : chatbot) (name a : string) :
  Forall (fun kv => clean (snd kv) = true) (collection_lookup cb) ->
  find_collection_alias cb name = Some a -> clean a = true.
Proof.
  intros Hall. unfold find_collection_alias.
  rewrite Forall_forall in Hall.
  destruct (lookup _ (collection_lookup cb)) as [b|] eqn:E.
  - intros [= ->]. apply lookup_in in E as [k Hin]. exact (Hall _ Hin).
  - intros H. apply partial_match_in in H as [k Hin]. exact (Hall _ Hin).
Qed.

(* ================================================================= *)
(** ** Further properties of the program *)

(** *** The rules that need no collection *)

Lemma help_word_no_collections (u : string) :
  help_word u = true -> contains "collections" u = false.
Proof.
  unfold help_word. simpl. rewrite !orb_true_iff.
  intros [H|[H|[H|H]]]; try discriminate;
    apply String.eqb_eq in H; subst u; reflexivity.
Qed.

(** X8.  The help text and the list of collections come from the first two
    rules only: the resolver yields [Help] exactly on the three help
    words, and [ListCollections] exactly on the other inputs that hold
    "collections", whatever else they hold; no help word holds
    "collections". *)
Theorem offline_intents (cb : chatbot) (u : string) :
  (resolve_intent cb u = Ok Help <-> help_word u = true)
  /\ (resolve_intent cb u = Ok ListCollections
      <-> help_word u = false /\ contains "collections" u = true).
Proof.
  unfold resolve_intent. fold (help_word u).
  destruct (help_word u) eqn:Hh; [split; split; easy|].
  assert (Hor : contains "collections" u || contains "list collections" u
                = contains "collections" u).
  { destruct (contains "collections" u) eqn:Hc; [reflexivity|].
    pose proof (list_rule_off u Hc) as E. now rewrite Hc in E. }
  rewrite Hor. destruct (contains "collections" u) eqn:Hc;
    [split; split; easy|].
  destruct (search browse_re u); [split; split; easy|].
  destruct (named_among_first cb u) as [[a|]|e]; cbn [bind];
    [split; split; easy| |split; split; easy].
  destruct (search search_in_re u); [split; split; easy|].
  destruct (startswith "search " u); [split; split; easy|].
  destruct (search item_re u); split; split; easy.
Qed.


(** *** The index of collections *)

Lemma startswith_refl (s : string) : startswith s s = true.
Proof.
  induction s as [|c s IH]; simpl; [reflexivity|].
  now rewrite Ascii.eqb_refl.
Qed.

Lemma overlaps_refl (n : string) : overlaps n n = true.
Proof.
  unfold overlaps.
  now rewrite (contains_startswith n n (startswith_refl n)).
Qed.

Lemma overlaps_empty_key (n : string) : overlaps n "" = true.
Proof.
  unfold overlaps. replace (contains "" n) with true; [apply orb_true_r|].
  now destruct n.
Qed.

Lemma overlaps_empty_name (k : string) : overlaps "" k = true.
Proof. unfold overlaps. now destruct k. Qed.

Lemma lookup_key_in {A : Type} (k : string) (d : list (string * A)) (v : A) :
  lookup k d = Some v -> In (k, v) d.
Proof.
  induction d as [|[k' v'] d IH]; simpl; [discriminate|].
  destruct (k' =? k)%string eqn:E.
  - intros [= ->]. apply String.eqb_eq in E. subst. now left.
  - intros H. right. now apply IH.
Qed.

Lemma partial_match_exists (n : string) (l : list (string * string))
  (k a : string) :
  In (k, a) l -> overlaps n k = true -> partial_match n l <> None.
Proof.
  intros Hin Hk H.
  assert (Hall : forall k' a', In (k', a') l -> overlaps n k' = false).
  { clear Hin Hk. induction l as [|[k' a'] l IH]; [easy|]. simpl in H.
    destruct (contains n k' || contains k' n) eqn:E; [discriminate|].
    intros k'' a'' [Hin|Hin]; [now inversion Hin; subst|].
    now apply (IH H k'' a''). }
  rewrite (Hall k a Hin) in Hk. discriminate.
Qed.

(** X6.  A name of ASCII text that no key of the index overlaps is not
    found: the browse and the search in a collection answer with the
    not-found message, which quotes the name as it was given, and send no
    request. *)
Theorem unknown_collection (cb : chatbot) (terms name : string)
  (log : list string) :
  isascii name = true ->
  (forall k a, In (k, a) (collection_lookup cb) ->
               overlaps (strip (Text.lower name)) k = false) ->
  browse_collection cb name log = (Ok (not_found_message name), log)
  /\ search_in_collection cb terms name log
     = (Ok (not_found_message name), log).
Proof.
  intros _ Hall.
  assert (Hfind : find_collection_alias cb name = None).
  { unfold find_collection_alias.
    destruct (lookup _ (collection_lookup cb)) as [a|] eqn:E.
    - apply lookup_key_in in E. specialize (Hall _ _ E).
      rewrite overlaps_refl in Hall. discriminate.
    - now apply partial_match_none. }
  unfold browse_collection, search_in_collection. now rewrite Hfind.
Qed.

(** X7.  A key that is empty (the index gets one from every collection
    without a name) is contained in every name, and an empty name is
    contained in every key: with either, [find_collection_alias] never
    answers [None]. *)
Theorem catch_all_resolution (cb : chatbot) (name : string) :
  (exists a, In ("", a) (collection_lookup cb))
  \/ (collection_lookup cb <> [] /\ strip (Text.lower name) = "") ->
  find_collection_alias cb name <> None.
Proof.
  intros H. unfold find_collection_alias.
  destruct (lookup _ (collection_lookup cb)) as [b|] eqn:E; [easy|].
  destruct H as [[a Hin]|[Hne Hblank]].
  - apply (partial_match_exists _ _ "" a Hin), overlaps_empty_key.
  - rewrite Hblank. destruct (collection_lookup cb) as [|[k a] l]; [easy|].
    apply (partial_match_exists _ _ k a); [now left|].
    apply overlaps_empty_name.
Qed.

Lemma store_entries (P : string * string -> Prop) (k v : string)
  (d : list (string * string)) :
  P (k, v) -> Forall P d -> Forall P (store k v d).
Proof.
  intros Hv. induction 1 as [|[k' v'] d Hkv Hd IH]; simpl.
  - now repeat constructor.
  - destruct (k' =? k)%string eqn:E; constructor; trivial.
    apply String.eqb_eq in E. now subst.
Qed.

Lemma fill_lookup_entries (cs : list json) :
  forall lk lk',
    Forall entry_ok lk -> fill_lookup cs lk = Ok lk' -> Forall entry_ok lk'.
Proof.
  induction cs as [|c cs IH]; intros lk lk' Hlk; simpl.
  - now intros [= <-].
  - destruct (get c "alias" (JStr "")) as [a|e]; [|discriminate].
    cbn [bind].
    destruct a as [| | |s| |]; try discriminate. cbn [Py.lstrip_slash bind].
    destruct (get c "name" (JStr "")) as [n|e]; [|discriminate].
    cbn [bind].
    destruct (Text.lstrip_slash s =? "")%string eqn:Ea; cbn [negb];
      [now apply IH|].
    destruct n as [| | |n| |]; try discriminate. cbn [Py.lower bind].
    apply String.eqb_neq in Ea.
    apply IH. apply store_entries.
    + unfold entry_ok. simpl. repeat split; trivial;
        [apply lower_idem | apply lstrip_slash_clean].
    + apply store_entries; [|exact Hlk].
      unfold entry_ok. simpl. repeat split; trivial;
        [apply lower_idem | apply lstrip_slash_clean].
Qed.

Lemma initialize_fills (cb0 cb : chatbot) (log log' : list string) :
  initialize cb0 log = (Ok (cb, true), log') ->
  exists cs,
    iter (collections cb) = Ok cs
    /\ fill_lookup cs (collection_lookup cb0) = Ok (collection_lookup cb).
Proof.
  unfold initialize, api_get_collections, make_request.
  unfold mbind, lift, request, ret. cbn [bind].
  replace ("" =? "")%string with true by reflexivity.
  destruct (contains_key "error" _) as [[|]|e]; try discriminate.
  - destruct (getitem _ "error"); discriminate.
  - destruct (iter _) as [cs|e] eqn:Ei; [|discriminate].
    destruct (fill_lookup cs (collection_lookup cb0)) as [lk|e] eqn:Ef;
      [|discriminate].
    intros [= <- _]. exists cs. now split.
Qed.

(** X2.  The index after [initialize]: every identifier that
    [find_collection_alias] returns is the value of a key in lower case,
    is not empty and has no leading separator; so the test
    [if not collection_alias] of the callers fails on [None] only. *)
Theorem index_invariant (cb0 cb : chatbot) (log log' : list string)
  (name a : string) :
  Forall entry_ok (collection_lookup cb0) ->
  initialize cb0 log = (Ok (cb, true), log') ->
  find_collection_alias cb name = Some a ->
  a <> "" /\ clean a = true
  /\ (exists k, In (k, a) (collection_lookup cb) /\ Text.lower k = k)
  /\ found (find_collection_alias cb name) = Some a.
Proof.
  intros H0 Hinit Hfind.
  destruct (initialize_fills cb0 cb log log' Hinit) as (cs & _ & Hfill).
  pose proof (fill_lookup_entries cs _ _ H0 Hfill) as Hall.
  rewrite Forall_forall in Hall.
  assert (Hin : exists k, In (k, a) (collection_lookup cb)).
  { unfold find_collection_alias in Hfind.
    destruct (lookup _ (collection_lookup cb)) as [b|] eqn:E.
    - injection Hfind as ->. exists (strip (Text.lower name)).
      now apply lookup_key_in.
    - now apply partial_match_in in Hfind. }
  destruct Hin as [k Hin]. destruct (Hall _ Hin) as (Hk & Ha & Hc).
  simpl in *. repeat split; trivial.
  - now exists k.
  - rewrite Hfind. unfold found. apply String.eqb_neq in Ha. now rewrite Ha.
Qed.

Lemma api_get_collections_url (log : list string) :
  api_get_collections log
  = (Ok (http_get collections_url), app log [collections_url]).
Proof. reflexivity. Qed.

(** X4.  When the service answers the list of collections with an error,
    [initialize] returns [False] after its one request and leaves the
    chatbot as it was; an empty list of collections is accepted, and the
    chatbot then reports that no collections are loaded. *)
Theorem initialize_replies (cb0 : chatbot) (log : list string) :
  (forall d e,
     http_get collections_url = JDict d -> lookup "error" d = Some e ->
     initialize cb0 log = (Ok (cb0, false), app log [collections_url]))
  /\ (http_get collections_url = JList [] ->
      exists cb,
        initialize cb0 log = (Ok (cb, true), app log [collections_url])
        /\ collection_lookup cb = collection_lookup cb0
        /\ list_collections cb
           = Ok "❌ Collections not loaded. Please restart the chatbot.").
Proof.
  unfold initialize, mbind. rewrite api_get_collections_url. split.
  - intros d e -> He. unfold lift, ret. cbn [contains_key getitem].
    now rewrite He.
  - intros ->. unfold lift, ret. cbn.
    eexists. split; [reflexivity|]. split; reflexivity.
Qed.

Lemma lookup_store_same {A : Type} (k : string) (v : A)
  (d : list (string * A)) : lookup k (store k v d) = Some v.
Proof.
  induction d as [|[k' v'] d IH]; simpl.
  - now rewrite String.eqb_refl.
  - destruct (k' =? k)%string eqn:E; simpl; now rewrite E.
Qed.

Lemma lookup_store_other {A : Type} (k k' : string) (v : A)
  (d : list (string * A)) :
  k <> k' -> lookup k' (store k v d) = lookup k' d.
Proof.
  intros Hne. induction d as [|[k0 v0] d IH]; simpl.
  - apply String.eqb_neq in Hne. now rewrite Hne.
  - destruct (k0 =? k)%string eqn:E; simpl.
    + apply String.eqb_eq in E. subst k0.
      apply String.eqb_neq in Hne. now rewrite Hne.
    + now rewrite IH.
Qed.

Lemma get_raw_alias (c : json) (s : string) :
  get c "alias" (JStr "") = Ok (JStr s) -> raw_alias c = s.
Proof.
  unfold raw_alias. destruct c as [| | | |l|d]; simpl; try discriminate.
  destruct (lookup "alias" d) as [[| | |t| |]|]; try discriminate;
    now intros [= ->].
Qed.

Lemma get_shown_name (c : json) (s : string) :
  get c "name" (JStr "") = Ok (JStr s) -> shown_name c = s.
Proof.
  unfold shown_name. destruct c as [| | | |l|d]; simpl; try discriminate.
  destruct (lookup "name" d) as [[| | |t| |]|]; try discriminate;
    now intros [= ->].
Qed.

(** [initialize] leaves alone the keys that no collection writes. *)
Lemma fill_lookup_other (k : string) (cs : list json) :
  forall lk lk',
    fill_lookup cs lk = Ok lk' -> ~ In k (flat_map keys_of cs) ->
    lookup k lk' = lookup k lk.
Proof.
  induction cs as [|c cs IH]; intros lk lk'; simpl.
  - now intros [= <-].
  - destruct (get c "alias" (JStr "")) as [a|e] eqn:Ea; [|discriminate].
    cbn [bind].
    destruct a as [| | |s| |]; try discriminate. cbn [Py.lstrip_slash bind].
    destruct (get c "name" (JStr "")) as [n|e] eqn:En; [|discriminate].
    cbn [bind]. unfold keys_of. rewrite (get_raw_alias c s Ea).
    destruct (Text.lstrip_slash s =? "")%string eqn:Es; cbn [negb].
    + simpl. now apply IH.
    + destruct n as [| | |n| |]; try discriminate. cbn [Py.lower bind].
      rewrite (get_shown_name c n En). intros Hfill Hnot.
      rewrite in_app_iff in Hnot. simpl in Hnot.
      rewrite (IH _ _ Hfill) by (intros Hin; apply Hnot; now right).
      rewrite !lookup_store_other; trivial; intros E; apply Hnot; auto.
Qed.

Lemma fill_lookup_app (l1 l2 : list json) :
  forall lk, fill_lookup (l1 ++ l2) lk
             = (lk1 <- fill_lookup l1 lk ;; fill_lookup l2 lk1).
Proof.
  induction l1 as [|c l1 IH]; intros lk; simpl; [reflexivity|].
  destruct (get c "alias" (JStr "")) as [a|e]; [|reflexivity]. cbn [bind].
  destruct (Py.lstrip_slash a) as [s|e]; [|reflexivity]. cbn [bind].
  destruct (get c "name" (JStr "")) as [n|e]; [|reflexivity]. cbn [bind].
  destruct (negb (s =? "")%string); [|apply IH].
  destruct (Py.lower n) as [nl'|e]; [|reflexivity]. cbn [bind]. apply IH.
Qed.

(** X1.  Round trip through the index, for loaded collections whose
    aliases and display names are ASCII text and a query of ASCII text:
    after [initialize], a loaded collection with an identifier is found
    under its display name and under its identifier, in any letter case
    and with blanks around the query, as long as no collection loaded
    after it writes the same key and the key itself has no blanks around
    it. *)
Theorem index_round_trip (cb0 cb : chatbot) (log log' : list string)
  (before after : list json) (c : json) (raw name : string) :
  initialize cb0 log = (Ok (cb, true), log') ->
  collections cb = JList (before ++ c :: after) ->
  forallb ascii_collection (before ++ c :: after) = true ->
  alias_of c = Some raw -> display_name c = Some name ->
  Text.lstrip_slash raw <> "" ->
  forall query key,
    isascii query = true ->
    In key [Text.lower (Text.lstrip_slash raw); Text.lower name] ->
    strip (Text.lower query) = key ->
    ~ In key (flat_map keys_of after) ->
    find_collection_alias cb query = Some (Text.lstrip_slash raw).
Proof.
  intros Hinit Hcols _ Ha Hn Hne query key _ Hkey Hq Hafter.
  destruct (initialize_fills cb0 cb log log' Hinit) as (cs & Hiter & Hfill).
  rewrite Hcols in Hiter. injection Hiter as <-.
  rewrite fill_lookup_app in Hfill.
  destruct (fill_lookup before (collection_lookup cb0)) as [lk1|e];
    [|discriminate].
  cbn [bind fill_lookup] in Hfill.
  rewrite (get_alias_of c raw Ha), (get_display_name c name Hn) in Hfill.
  cbn [bind Py.lstrip_slash Py.lower] in Hfill.
  apply String.eqb_neq in Hne. rewrite Hne in Hfill.
  cbn [negb bind] in Hfill.
  unfold find_collection_alias. rewrite Hq.
  rewrite (fill_lookup_other key after _ _ Hfill Hafter).
  destruct Hkey as [<-|[<-|[]]].
  - destruct (String.eqb_spec (Text.lower name)
                               (Text.lower (Text.lstrip_slash raw))) as [E|E].
    + rewrite E. now rewrite lookup_store_same.
    + rewrite lookup_store_other by exact E. now rewrite lookup_store_same.
  - now rewrite lookup_store_same.
Qed.

(** *** The requests *)

Lemma strings_of_strings (ps : list string) : strings (map JStr ps) = Ok ps.
Proof.
  induction ps as [|p ps IH]; simpl; [reflexivity|]. now rewrite IH.
Qed.

Lemma strings_not_string (params : list json) (p : json) :
  In p params -> (forall s, p <> JStr s) -> strings params = Raise TypeError.
Proof.
  induction params as [|q params IH]; [easy|]. intros [->|Hin] Hp; simpl.
  - destruct p as [| | |s| |]; try reflexivity. now destruct (Hp s).
  - destruct q as [| | |s| |]; try reflexivity. now rewrite (IH Hin Hp).
Qed.

Lemma make_request_strings (function : string) (ps : list string)
  (log : list string) :
  make_request function (map JStr ps) log
  = (Ok (http_get (request_url function ps)),
     app log [request_url function ps]).
Proof.
  unfold make_request, mbind, lift, request, request_url.
  destruct ps as [|p ps]; [reflexivity|].
  unfold Py.join. rewrite strings_of_strings. cbn [bind map].
  destruct (Text.join "/" (p :: ps) =? "")%string; reflexivity.
Qed.

(** X12.  [_make_request] sends one request, for the function and its
    parameters between slashes, when all the parameters are strings; a
    parameter that is not a string makes it raise [TypeError] before
    anything is sent. *)
Theorem make_request_outcome (function : string) (params : list json)
  (log : list string) :
  (forall ps, params = map JStr ps ->
     make_request function params log
     = (Ok (http_get (request_url function ps)),
        app log [request_url function ps]))
  /\ (forall p, In p params -> (forall s, p <> JStr s) ->
        make_request function params log = (Raise TypeError, log)).
Proof.
  split.
  - intros ps ->. apply make_request_strings.
  - intros p Hin Hp. unfold make_request, mbind, lift.
    destruct params as [|q params]; [easy|].
    unfold Py.join. now rewrite (strings_not_string _ p Hin Hp).
Qed.

Lemma api_search_items_request (a terms : string) (n : Z)
  (log : list string) :
  api_search_items (JStr a) terms n log
  = (Ok (http_get (search_url a terms n)), app log [search_url a terms n]).
Proof.
  unfold api_search_items, make_request, mbind, lift, request.
  cbn [Py.join strings bind Text.join String.concat].
  rewrite params_nonempty.
  match goal with
  | |- (Ok (http_get ?u), _) = _ => assert (E : u = search_url a terms n)
  end.
  { unfold search_url. rewrite !append_assoc. reflexivity. }
  now rewrite E.
Qed.

Lemma api_browse_collection_request (a : string) (log : list string) :
  api_browse_collection (JStr a) log
  = (Ok (http_get (browse_url a)), app log [browse_url a]).
Proof.
  unfold api_browse_collection, make_request, mbind, lift, request.
  cbn [Py.join strings bind Text.join String.concat].
  rewrite params_nonempty.
  match goal with
  | |- (Ok (http_get ?u), _) = _ => assert (E : u = browse_url a)
  end.
  { unfold browse_url. rewrite !append_assoc. reflexivity. }
  now rewrite E.
Qed.

Lemma api_get_item_info_request (a item_id : string) (log : list string) :
  api_get_item_info a item_id log
  = (Ok (http_get (item_info_url a item_id)),
     app log [item_info_url a item_id]).
Proof.
  unfold api_get_item_info, make_request, mbind, lift, request.
  cbn [Py.join strings bind Text.join String.concat].
  rewrite params_nonempty.
  match goal with
  | |- (Ok (http_get ?u), _) = _ => assert (E : u = item_info_url a item_id)
  end.
  { unfold item_info_url. rewrite !append_assoc. reflexivity. }
  now rewrite E.
Qed.

(** X13.  The three queries of the client, as they go out: a search sends the
    alias, the terms under CISOSEARCHALL with mode "any" and operator
    "and", the four default fields and the cap on the records; a browse
    sends "0" for the terms, three fields and the cap 20; the details of
    an item send the alias and the item.  Each sends one request and
    returns the reply as it is. *)
Theorem client_requests (a terms item_id : string) (n : Z)
  (log : list string) :
  api_search_items (JStr a) terms n log
  = (Ok (http_get (search_url a terms n)), app log [search_url a terms n])
  /\ api_browse_collection (JStr a) log
     = (Ok (http_get (browse_url a)), app log [browse_url a])
  /\ api_get_item_info a item_id log
     = (Ok (http_get (item_info_url a item_id)),
        app log [item_info_url a item_id]).
Proof.
  split; [apply api_search_items_request|].
  split; [apply api_browse_collection_request
         | apply api_get_item_info_request].
Qed.

(** X14.  [get_item_details] sends the one request for the item and gives the
    reply to the formatter together with the alias; when the service
    reports an error, the answer is the line "Error retrieving item" with
    the message of the service. *)
Theorem get_item_details_reply (a item_id : string) (log : list string) :
  get_item_details a item_id log
  = (format_item_details (http_get (item_info_url a item_id)) a,
     app log [item_info_url a item_id])
  /\ (forall d e,
        http_get (item_info_url a item_id) = JDict d ->
        lookup "error" d = Some e ->
        get_item_details a item_id log
        = (Ok ("❌ Error retrieving item: " ++ str_of e),
           app log [item_info_url a item_id])).
Proof.
  assert (H : get_item_details a item_id log
              = (format_item_details (http_get (item_info_url a item_id)) a,
                 app log [item_info_url a item_id])).
  { unfold get_item_details, mbind. rewrite api_get_item_info_request.
    reflexivity. }
  split; [exact H|]. intros d e Hd He. rewrite H, Hd.
  unfold format_item_details. cbn [contains_key getitem]. now rewrite He.
Qed.

(** *** The number of requests *)

Lemma sends_ret {A : Type} (a : A) : sends (ret a) 0.
Proof. intros log. exists []. simpl. now rewrite app_nil_r. Qed.

Lemma sends_lift {A : Type} (r : result A) : sends (lift r) 0.
Proof. intros log. exists []. simpl. now rewrite app_nil_r. Qed.

Lemma sends_weaken {A : Type} (m : M A) (n n' : nat) :
  sends m n -> n <= n' -> sends m n'.
Proof.
  intros H Hle log. destruct (H log) as (new & E & Hlen).
  exists new. split; [exact E | lia].
Qed.

Lemma sends_bind {A B : Type} (m : M A) (f : A -> M B) (n1 n2 : nat) :
  sends m n1 -> (forall a, sends (f a) n2) -> sends (mbind m f) (n1 + n2).
Proof.
  intros Hm Hf log. unfold mbind.
  destruct (Hm log) as (new1 & E1 & Hlen1).
  destruct (m log) as [[a|e] log1]; simpl in E1; subst log1.
  - destruct (Hf a (app log new1)) as (new2 & E2 & Hlen2).
    exists (app new1 new2). rewrite E2, app_assoc. split; [reflexivity|].
    rewrite length_app. lia.
  - exists new1. simpl. split; [reflexivity | lia].
Qed.

Lemma sends_bind_lift {A B : Type} (r : result A) (f : A -> M B) (n : nat) :
  (forall a, r = Ok a -> sends (f a) n) -> sends (mbind (lift r) f) n.
Proof.
  intros Hf log. unfold mbind, lift. destruct r as [a|e].
  - exact (Hf a eq_refl log).
  - exists []. simpl. rewrite app_nil_r. split; [reflexivity | lia].
Qed.

Lemma sends_make_request (function : string) (params : list json) :
  sends (make_request function params) 1.
Proof.
  unfold make_request. apply sends_bind_lift. intros s _ log.
  exists [api_url ++ "?q=" ++
          (if (s =? "")%string then function ++ "/json"
           else function ++ "/" ++ s ++ "/json")].
  split; [reflexivity | simpl; lia].
Qed.

Lemma sends_labelled (cb : chatbot) (results : json)
  (collection_alias collection_name : string) :
  sends (cs <~ lift (iter (collections cb)) ;;
         collection_info <~ lift (first_with_alias collection_alias cs) ;;
         collection_display_name <~
           lift (get collection_info "name" (JStr collection_name)) ;;
         lift (format_search_results results collection_display_name)) 0.
Proof.
  apply sends_bind_lift. intros cs _.
  apply sends_bind_lift. intros info _.
  apply sends_bind_lift. intros name _. apply sends_lift.
Qed.

Lemma sends_search_loop (terms : string) (cs : list json) :
  forall all_results searched,
    sends (search_loop terms cs all_results searched) (List.length cs).
Proof.
  induction cs as [|c cs IH]; intros all_results searched.
  - apply sends_ret.
  - cbn [search_loop List.length].
    apply sends_bind_lift. intros alias _.
    apply sends_bind_lift. intros name _.
    destruct (truthy alias).
    + apply (sends_bind _ _ 1 (List.length cs));
        [apply sends_make_request|].
      intros results. apply sends_bind_lift. intros records _.
      destruct (truthy records); [|apply IH].
      apply sends_bind_lift. intros records' _.
      apply sends_bind_lift. intros items _. apply IH.
    + apply (sends_weaken _ (List.length cs)); [apply IH | lia].
Qed.

Lemma chars_length (s : string) : List.length (chars s) = String.length s.
Proof. induction s as [|c s IH]; simpl; [reflexivity | now rewrite IH]. Qed.

Lemma take_length (n : nat) (s : string) : String.length (take n s) <= n.
Proof.
  revert s; induction n as [|n IH]; intros [|c s]; simpl; try lia.
  specialize (IH s). lia.
Qed.

Lemma slice_iter_length (x y : json) (n : nat) (cs : list json) :
  slice x n = Ok y -> iter y = Ok cs -> List.length cs <= n.
Proof.
  destruct x as [| | |s|l|d]; simpl; try discriminate; intros [= <-]; simpl;
    intros [= <-].
  - rewrite chars_length. apply take_length.
  - apply firstn_length_le.
Qed.

Lemma sends_search_all (cb : chatbot) (terms : string) :
  sends (search_all_collections cb terms) 5.
Proof.
  unfold search_all_collections.
  destruct (negb (truthy (collections cb)));
    [apply (sends_weaken _ 0); [apply sends_ret | lia]|].
  apply sends_bind_lift. intros first5 Hslice.
  apply sends_bind_lift. intros cs Hiter.
  apply (sends_weaken _ (List.length cs + 0));
    [|pose proof (slice_iter_length _ _ _ _ Hslice Hiter); lia].
  apply sends_bind; [apply sends_search_loop|].
  intros [[|r all_results] searched]; [apply sends_ret|].
  apply sends_bind_lift. intros output _. apply sends_ret.
Qed.

Lemma sends_dispatch (cb : chatbot) (i : intent) :
  sends (dispatch cb i) (budget i).
Proof.
  destruct i as [| |name|terms name|terms|alias item_id]; cbn [dispatch budget].
  - apply sends_ret.
  - apply sends_lift.
  - unfold browse_collection.
    destruct (found _); [|apply (sends_weaken _ 0); [apply sends_ret | lia]].
    apply (sends_bind _ _ 1 0); [apply sends_make_request|].
    intros results. apply sends_labelled.
  - unfold search_in_collection.
    destruct (found _); [|apply (sends_weaken _ 0); [apply sends_ret | lia]].
    apply (sends_bind _ _ 1 0); [apply sends_make_request|].
    intros results. apply sends_labelled.
  - apply sends_search_all.
  - unfold get_item_details.
    apply (sends_bind _ _ 1 0); [apply sends_make_request|].
    intros item_data. apply sends_lift.
Qed.

(** X11.  Whatever the input, the state and the replies of the service, and
    also when it raises, [process_query] keeps the requests sent before
    and adds five at most: none for the help and the list of
    collections, one for a browse, a search in a collection and the
    details of an item, five for a search of all collections. *)
Theorem request_budget (cb : chatbot) :
  (forall i, sends (dispatch cb i) (budget i))
  /\ (forall s, sends (process_query cb s) 5).
Proof.
  split; [apply sends_dispatch|].
  intros s. unfold process_query. apply sends_bind_lift. intros i _.
  apply (sends_weaken _ (budget i)); [apply sends_dispatch|].
  destruct i; simpl; lia.
Qed.

(** *** The label of the results *)




Lemma blocks_unique {A B : Type} (f : A -> result B) (l : list A)
  (b1 b2 : list B) :
  Forall2 (fun x b => f x = Ok b) l b1 ->
  Forall2 (fun x b => f x = Ok b) l b2 -> b1 = b2.
Proof.
  intros H1. revert b2.
  induction H1 as [|x b l b1 Hx _ IH]; intros b2 H2; inversion H2; subst.
  - reflexivity.
  - f_equal; [congruence | now apply IH].
Qed.

(** X18.  The label changes the heading of the results and nothing else: on a
    payload with well-typed fields, either the answer does not depend on
    the label at all (the error line, the no-results message), or it is
    the heading for the label followed by lines that are the same for
    every label. *)
Theorem label_only_in_heading (d : list (string * json)) :
  well_typed_results d = true ->
  (exists text, forall name, format_search_results (JDict d) name = Ok text)
  \/ (exists rest, forall name,
         format_search_results (JDict d) name
         = Ok (Text.join nl (search_header name :: rest))).
Proof.
  intros Hwt. unfold well_typed_results in Hwt.
  destruct (lookup "error" d) as [e|] eqn:Herr.
  { left. eexists. intros name. unfold format_search_results.
    cbn [contains_key getitem]. rewrite Herr. cbn [bind]. reflexivity. }
  destruct (lookup "records" d) as [v|] eqn:Hrecs.
  2:{ left. eexists. intros name. unfold format_search_results.
      cbn [contains_key get]. rewrite Herr, Hrecs. reflexivity. }
  destruct (truthy v) eqn:Hv.
  2:{ left. eexists. intros name. unfold format_search_results.
      cbn [contains_key get]. rewrite Herr, Hrecs. cbn [bind].
      rewrite Hv. reflexivity. }
  cbn [negb orb] in Hwt. destruct v as [| | | |recs|]; try discriminate.
  apply andb_true_iff in Hwt as [Hwf Hpager].
  destruct (pager_total d 0) as [total0|] eqn:Hp0; [|discriminate].
  destruct (as_count total0) as [t0|] eqn:Hc0; [|discriminate].
  destruct (pager_total_any d total0 t0 (List.length (firstn 10 recs))
              Hp0 Hc0) as (total & t & Hp & Hc).
  destruct (search_results_output_blocks d JNull recs total t
              Hrecs Hwf Hp Hc) as (blocks & _ & Hall & _).
  right.
  exists (app (concat blocks)
              (if (Z.of_nat (List.length (firstn 10 recs)) <? t)%Z
               then [summary_line (List.length (firstn 10 recs)) total]
               else [])).
  intros name.
  destruct (search_results_output_blocks d name recs total t
              Hrecs Hwf Hp Hc) as (blocks' & _ & Hall' & Hout).
  rewrite (blocks_unique _ _ _ _ Hall Hall').
  unfold format_search_results. cbn [contains_key get].
  rewrite Herr, Hrecs. cbn [bind]. rewrite Hv. cbn [negb].
  now rewrite Hout.
Qed.

(** *** The list of collections *)

Lemma collection_lines_ok (c : json) :
  wf_listed c = true -> exists b, collection_lines c = Ok b.
Proof.
  destruct c as [| | | |l|d]; simpl; try discriminate.
  unfold collection_lines. cbn [get bind].
  destruct (lookup "alias" d) as [[| | |s| |]|]; try discriminate;
    intros _; cbn [Py.lstrip_slash bind]; now eexists.
Qed.

Lemma collection_loop_blocks (cs : list json) :
  forall out : list string,
    forallb wf_listed cs = true ->
    exists blocks,
      List.length blocks = List.length cs
      /\ Forall2 (fun c b => collection_lines c = Ok b) cs blocks
      /\ collection_loop cs out = Ok (app out (concat blocks)).
Proof.
  induction cs as [|c cs IH]; intros out H.
  - exists []. simpl. now rewrite app_nil_r.
  - simpl in H. apply andb_true_iff in H as [Hc Hcs].
    destruct (collection_lines_ok c Hc) as [b Hb].
    destruct (IH (app out b) Hcs) as (blocks & Hlen & Hall & Hloop).
    exists (b :: blocks). split; [simpl; now rewrite Hlen|]. split.
    + now constructor.
    + simpl. rewrite Hb. cbn [bind]. rewrite Hloop. now rewrite app_assoc.
Qed.

(** X19.  With collections loaded, [list_collections] renders the first twenty
    at most, one block of lines for each in load order, under its
    heading, and ends with the line "Showing 20 of N collections" exactly
    when more than twenty are loaded. *)
Theorem list_collections_limit (cb : chatbot) (cols : list json) :
  collections cb = JList cols -> cols <> [] ->
  forallb wf_listed (firstn 20 cols) = true ->
  exists blocks,
    List.length blocks = List.length (firstn 20 cols)
    /\ List.length blocks <= 20
    /\ Forall2 (fun c b => collection_lines c = Ok b) (firstn 20 cols) blocks
    /\ list_collections cb
       = Ok (Text.join nl
               (("📚 **Available Collections:**" ++ nl)
                  :: app (concat blocks)
                         (if 20 <? List.length cols
                          then [nl ++ "📊 Showing 20 of "
                                  ++ str_of_nat (List.length cols)
                                  ++ " collections"]
                          else []))).
Proof.
  intros Hcols Hne Hwf.
  destruct (collection_loop_blocks (firstn 20 cols)
              ["📚 **Available Collections:**" ++ nl] Hwf)
    as (blocks & Hlen & Hall & Hloop).
  exists blocks. split; [exact Hlen|].
  split; [rewrite Hlen; apply firstn_length_le|]. split; [exact Hall|].
  unfold list_collections. rewrite Hcols.
  assert (Htruthy : truthy (JList cols) = true)
    by (destruct cols; [easy | reflexivity]).
  rewrite Htruthy. cbn [negb slice iter bind]. rewrite Hloop.
  cbn [bind len]. destruct (20 <? List.length cols);
    [|now rewrite app_nil_r].
  reflexivity.
Qed.

(** *** The last rules of the resolver *)

Lemma word_not_space (c : ascii) : word c = true -> is_space c = false.
Proof. destruct c as [[] [] [] [] [] [] [] []]; now compute. Qed.

Lemma stops_space_word (s t : string) :
  s <> "" -> all_chars word s = true -> stops is_space (s ++ t).
Proof.
  destruct s as [|c s]; [easy|]. intros _ H. simpl in *.
  apply andb_true_iff in H as [Hc _]. now apply word_not_space.
Qed.

Lemma stops_word_space (s t : string) :
  s <> "" -> all_chars is_space s = true -> stops word (s ++ t).
Proof.
  destruct s as [|c s]; [easy|]. intros _ H. simpl in *.
  apply andb_true_iff in H as [Hc _].
  destruct (word c) eqn:E; [|reflexivity].
  apply word_not_space in E. congruence.
Qed.

(** [item\s+(\w+)\s+(\w+)] on "item A B" with any white space between the
    parts: the groups are the two words. *)
Lemma item_re_groups (ws1 a ws2 b rest : string) :
  ws1 <> "" -> all_chars is_space ws1 = true ->
  ws2 <> "" -> all_chars is_space ws2 = true ->
  a <> "" -> all_chars word a = true ->
  b <> "" -> all_chars word b = true -> stops word rest ->
  search item_re ("item" ++ ws1 ++ a ++ ws2 ++ b ++ rest) = Some [a; b].
Proof.
  intros H1 A1 H2 A2 Ha Wa Hb Wb Hrest.
  pose proof
    (first_seq _ _ _ _ _ _ _ _ _
       (first_str "item" (ws1 ++ a ++ ws2 ++ b ++ rest))
       (first_seq _ _ _ _ _ _ _ _ _
          (first_rep_greedy is_space ws1 (a ++ ws2 ++ b ++ rest) H1 A1
             (stops_space_word a _ Ha Wa))
          (first_seq _ _ _ _ _ _ _ _ _
             (first_grp _ _ _ _ _
                (first_rep_greedy word a (ws2 ++ b ++ rest) Ha Wa
                   (stops_word_space ws2 _ H2 A2)))
             (first_seq _ _ _ _ _ _ _ _ _
                (first_rep_greedy is_space ws2 (b ++ rest) H2 A2
                   (stops_space_word b _ Hb Wb))
                (first_grp _ _ _ _ _
                   (first_rep_greedy word b rest Hb Wb Hrest)))))) as H.
  apply search_first in H. exact H.
Qed.

(** X9.  On an input of ASCII text, with ASCII display names for the first
    ten loaded collections: when no rule before it matched, "item A B"
    asks for the details of item [B] of collection [A], the two words as
    they stand in the lower-case input; and an input that matches no
    pattern at all is searched for, whole, in all collections. *)
Theorem item_rule (cb : chatbot) (u : string) :
  isascii u = true -> ascii_names cb = true ->
  help_word u = false -> contains "collections" u = false ->
  search browse_re u = None -> named_among_first cb u = Ok None ->
  search search_in_re u = None -> startswith "search " u = false ->
  (forall g, search item_re u = Some g ->
     resolve_intent cb u = Ok (ItemDetail (group 1 g) (group 2 g)))
  /\ (search item_re u = None -> resolve_intent cb u = Ok (SearchAll u))
  /\ (forall ws1 a ws2 b rest,
        u = "item" ++ ws1 ++ a ++ ws2 ++ b ++ rest ->
        ws1 <> "" -> all_chars is_space ws1 = true ->
        ws2 <> "" -> all_chars is_space ws2 = true ->
        a <> "" -> all_chars word a = true ->
        b <> "" -> all_chars word b = true -> stops word rest ->
        resolve_intent cb u = Ok (ItemDetail a b)).
Proof.
  intros _ _ Hh Hc Hb Hn Hs Hp.
  assert (Hres : resolve_intent cb u
                 = match search item_re u with
                   | Some g => Ok (ItemDetail (group 1 g) (group 2 g))
                   | None => Ok (SearchAll u)
                   end).
  { unfold resolve_intent. fold (help_word u).
    rewrite Hh, (list_rule_off u Hc), Hb, Hn. cbn [bind].
    now rewrite Hs, Hp. }
  split; [|split].
  - intros g Hg. now rewrite Hres, Hg.
  - intros Hg. now rewrite Hres, Hg.
  - intros ws1 a ws2 b rest -> H1 A1 H2 A2 Ha Wa Hb' Wb Hrest.
    rewrite Hres.
    now rewrite (item_re_groups ws1 a ws2 b rest
                   H1 A1 H2 A2 Ha Wa Hb' Wb Hrest).
Qed.

Lemma count_space_app (a b : string) :
  count_space (a ++ b) = count_space a + count_space b.
Proof.
  induction a as [|c a IH]; simpl; [reflexivity|]. rewrite IH. lia.
Qed.

Lemma count_space_run (ws : string) :
  ws <> "" -> all_chars is_space ws = true -> 1 <= count_space ws.
Proof.
  destruct ws as [|c ws]; [easy|]. intros _ H. simpl in *.
  apply andb_true_iff in H as [Hc _]. rewrite Hc. lia.
Qed.

Lemma search_in_re_blanks (u : string) :
  count_space u < 3 -> search search_in_re u = None.
Proof.
  intros Hlt. apply search_none. intros pre t ->.
  destruct (matches search_in_re t) as [|o tl] eqn:E; [reflexivity|].
  exfalso.
  assert (Hne : matches search_in_re t <> []) by now rewrite E.
  apply search_in_re_matches in Hne
    as (ws1 & x & ws2 & ws3 & c & post & -> & [N1 A1] & _ & [N2 A2]
        & [N3 A3] & _).
  rewrite !count_space_app in Hlt.
  pose proof (count_space_run ws1 N1 A1).
  pose proof (count_space_run ws2 N2 A2).
  pose proof (count_space_run ws3 N3 A3). lia.
Qed.

(** X10.  The pattern of a search in a collection needs white space in
    three places: an input of ASCII text with less than three white space
    characters never matches it, so that "search" followed by one or two
    words goes, when no rule before matched and the display names of the
    first ten loaded collections are ASCII, to the search of all
    collections with the stripped rest of the input as terms. *)
Theorem search_all_rule (cb : chatbot) (u : string) :
  isascii u = true ->
  count_space u < 3 ->
  search search_in_re u = None
  /\ (ascii_names cb = true ->
      help_word u = false -> contains "collections" u = false ->
      search browse_re u = None -> named_among_first cb u = Ok None ->
      startswith "search " u = true ->
      resolve_intent cb u = Ok (SearchAll (strip (drop 7 u)))).
Proof.
  intros _ Hlt. pose proof (search_in_re_blanks u Hlt) as Hs.
  split; [exact Hs|]. intros _ Hh Hc Hb Hn Hp.
  unfold resolve_intent. fold (help_word u).
  rewrite Hh, (list_rule_off u Hc), Hb, Hn. cbn [bind].
  now rewrite Hs, Hp.
Qed.

(** *** The failures of the service *)

Lemma error_reply_fields (v : json) :
  is_error_reply v = true ->
  exists msg, v = JDict [("error", JStr msg)].
Proof.
  destruct v as [| | | | |[|[k [| | |msg| |]] [|kv d]]]; simpl;
    try discriminate.
  intros H. apply String.eqb_eq in H. subst k. now exists msg.
Qed.



Lemma error_replies_gather_nothing (terms : string) (cs : list json) :
  forallb (fun c => is_error_reply (reply_to terms c)) cs = true ->
  forallb (fun c => wf_reply (reply_to terms c)) cs = true
  /\ flat_map (fun c => records_of (reply_to terms c)) cs = [].
Proof.
  induction cs as [|c cs IH]; simpl; [easy|]. intros H.
  apply andb_true_iff in H as [Hc Hcs]. destruct (IH Hcs) as [Hwf Hnil].
  destruct (error_reply_fields _ Hc) as [msg E]. rewrite E, Hwf, Hnil.
  now split.
Qed.

(** X16.  A search of all collections does not report the failures of the
    service: when every query fails, the answer is the no-results
    message, as if nothing had been found. *)
Theorem search_all_hides_errors (cb : chatbot) (terms : string)
  (cols : list json) (log : list string) :
  collections cb = JList cols -> cols <> [] ->
  forallb wf_collection (firstn 5 cols) = true ->
  forallb (fun c => is_error_reply (reply_to terms c)) (queried cols) = true ->
  search_all_collections cb terms log
  = (Ok (no_results_message terms),
     app log (map (fun c => search_url (raw_alias c) terms 5)
                  (queried cols))).
Proof.
  intros Hcols Hne Hwf Herr.
  destruct (error_replies_gather_nothing terms _ Herr) as [Hreplies Hnil].
  unfold search_all_collections. rewrite Hcols.
  assert (Htruthy : truthy (JList cols) = true)
    by (destruct cols; [easy | reflexivity]).
  rewrite Htruthy. cbn [negb]. unfold mbind at 1, lift at 1. cbn [slice].
  unfold mbind at 1, lift at 1. cbn [iter]. unfold mbind at 1.
  rewrite (search_loop_gathers terms (firstn 5 cols) [] [] log Hwf Hreplies).
  cbn [app]. fold (queried cols). now rewrite Hnil.
Qed.

(** *** A successful start *)

Lemma lookup_store_present {A : Type} (k k' : string) (v : A)
  (d : list (string * A)) :
  lookup k d <> None -> lookup k (store k' v d) <> None.
Proof.
  intros H. destruct (String.eqb_spec k' k) as [->|Hne].
  - now rewrite lookup_store_same.
  - now rewrite lookup_store_other.
Qed.

Lemma fill_lookup_present (k : string) (cs : list json) :
  forall lk lk',
    fill_lookup cs lk = Ok lk' -> lookup k lk <> None ->
    lookup k lk' <> None.
Proof.
  induction cs as [|c cs IH]; intros lk lk'; simpl.
  - now intros [= <-].
  - destruct (get c "alias" (JStr "")) as [a|e]; [|discriminate].
    cbn [bind].
    destruct (Py.lstrip_slash a) as [s|e]; [|discriminate]. cbn [bind].
    destruct (get c "name" (JStr "")) as [n|e]; [|discriminate].
    cbn [bind].
    destruct (negb (s =? "")%string); [|apply IH].
    destruct (Py.lower n) as [nl'|e]; [|discriminate]. cbn [bind].
    intros Hfill Hk. apply (IH _ _ Hfill).
    now apply lookup_store_present, lookup_store_present.
Qed.

Lemma fill_lookup_loads (cs : list json) :
  forall lk,
    forallb wf_collection cs = true ->
    exists lk',
      fill_lookup cs lk = Ok lk'
      /\ forall c k, In c cs -> In k (keys_of c) -> lookup k lk' <> None.
Proof.
  induction cs as [|c cs IH]; intros lk H.
  - exists lk. split; [reflexivity | easy].
  - simpl in H. apply andb_true_iff in H as [Hc Hcs].
    destruct (wf_collection_fields c Hc) as [Ea En].
    cbn [fill_lookup]. rewrite Ea, En. cbn [bind Py.lstrip_slash Py.lower].
    unfold keys_of.
    destruct (Text.lstrip_slash (raw_alias c) =? "")%string eqn:Es;
      cbn [negb bind].
    + destruct (IH lk Hcs) as (lk' & Hfill & Hkeys).
      exists lk'. split; [exact Hfill|].
      intros c' k [<-|Hin] Hk.
      * unfold keys_of in Hk. now rewrite Es in Hk.
      * now apply (Hkeys c').
    + destruct (IH (store (Text.lower (shown_name c))
                          (Text.lstrip_slash (raw_alias c))
                          (store (Text.lower
                                    (Text.lstrip_slash (raw_alias c)))
                                 (Text.lstrip_slash (raw_alias c)) lk))
                   Hcs) as (lk' & Hfill & Hkeys).
      exists lk'. split; [exact Hfill|].
      intros c' k [<-|Hin] Hk.
      * unfold keys_of in Hk. rewrite Es in Hk.
        apply (fill_lookup_present k cs _ _ Hfill).
        destruct Hk as [<-|[<-|[]]].
        -- apply lookup_store_present. now rewrite lookup_store_same.
        -- now rewrite lookup_store_same.
      * now apply (Hkeys c').
Qed.

Lemma no_error_among_dicts (cs : list json) :
  forallb wf_collection cs = true ->
  existsb (fun v => eq_str v "error") cs = false.
Proof.
  induction cs as [|c cs IH]; simpl; [reflexivity|]. intros H.
  apply andb_true_iff in H as [Hc Hcs]. rewrite (IH Hcs).
  destruct c as [| | |s| |]; try reflexivity. discriminate.
Qed.

(** X3.  When the service answers with a list of collections, each a dict
    with ASCII texts for its alias and its name, [initialize] returns [True]
    after its one request, keeps the list as the service gave it, and
    the index then holds a key for the identifier and for the name of
    every collection that has an identifier. *)
Theorem initialize_loads (cb0 : chatbot) (cs : list json)
  (log : list string) :
  http_get collections_url = JList cs ->
  forallb wf_collection cs = true ->
  forallb ascii_collection cs = true ->
  exists cb,
    initialize cb0 log = (Ok (cb, true), app log [collections_url])
    /\ collections cb = JList cs
    /\ forall c k, In c cs -> In k (keys_of c) ->
                   lookup k (collection_lookup cb) <> None.
Proof.
  intros Hreply Hwf _.
  destruct (fill_lookup_loads cs (collection_lookup cb0) Hwf)
    as (lk & Hfill & Hkeys).
  exists {| collections := JList cs; collection_lookup := lk |}.
  unfold initialize, mbind. rewrite api_get_collections_url, Hreply.
  unfold lift, ret. cbn [contains_key]. rewrite (no_error_among_dicts cs Hwf).
  cbn [iter]. rewrite Hfill. repeat split. exact Hkeys.
Qed.

(** *** The lines of a record *)

(** X20.  Every record of a list of results is rendered as its number and its
    title ("Untitled" without one), at most one line for the date, and,
    last, the link of the item and an empty line; the identifier in the
    link has no leading separator. *)
Theorem record_block (i : nat) (d : list (string * json))
  (b : list string) :
  search_result_lines i (JDict d) = Ok b
  \/ combined_result_lines i (JDict d) = Ok b ->
  exists mid a,
    b = (str_of_nat i ++ ". **"
           ++ str_of (first_present d ["title"] (JStr "Untitled")) ++ "**")
          :: app mid ["   🔗 " ++ item_url a
                        (first_present d ["pointer"] (JStr "")); ""]
    /\ List.length mid <= 2 /\ clean a = true.
Proof.
  unfold search_result_lines, combined_result_lines.
  cbn [get bind first_present].
  destruct (lookup "collection" d) as [[| | |s| |]|];
    try (intros [H|H]; discriminate H);
    cbn [Py.lstrip_slash bind]; intros [[= <-]|[= <-]].
  - exists (if truthy (match lookup "date" d with
                       | Some v => v | None => JStr "Date unknown" end)
               && negb (eq_str (match lookup "date" d with
                                | Some v => v
                                | None => JStr "Date unknown" end)
                               "Date unknown")
            then ["   📅 " ++ str_of (match lookup "date" d with
                                      | Some v => v
                                      | None => JStr "Date unknown" end)]
            else []), (Text.lstrip_slash s).
    split; [reflexivity|]. split; [|apply lstrip_slash_clean].
    destruct (_ && _); simpl; lia.
  - exists (app (if truthy (match lookup "date" d with
                            | Some v => v | None => JStr "" end)
                 then ["   📅 " ++ str_of (match lookup "date" d with
                                           | Some v => v
                                           | None => JStr "" end)]
                 else [])
                ["   📚 Collection: " ++ s]), (Text.lstrip_slash s).
    split; [now rewrite <- app_assoc|]. split; [|apply lstrip_slash_clean].
    destruct (truthy _); simpl; lia.
  - exists (if truthy (match lookup "date" d with
                       | Some v => v | None => JStr "Date unknown" end)
               && negb (eq_str (match lookup "date" d with
                                | Some v => v
                                | None => JStr "Date unknown" end)
                               "Date unknown")
            then ["   📅 " ++ str_of (match lookup "date" d with
                                      | Some v => v
                                      | None => JStr "Date unknown" end)]
            else []), "".
    split; [reflexivity|]. split; [|reflexivity].
    destruct (_ && _); simpl; lia.
  - exists (app (if truthy (match lookup "date" d with
                            | Some v => v | None => JStr "" end)
                 then ["   📅 " ++ str_of (match lookup "date" d with
                                           | Some v => v
                                           | None => JStr "" end)]
                 else [])
                ["   📚 Collection: " ++ ""]), "".
    split; [now rewrite <- app_assoc|]. split; [|reflexivity].
    destruct (truthy _); simpl; lia.
Qed.

End Program.

(* ================================================================= *)
(** ** The claims on the sample archive *)

Import Text Py Regex.






Lemma format_search_results_limit_witness :
  exists blocks,
    List.length blocks = 1
    /\ format_search_results sample_repr sample_reply (JStr "Maps")
       = Ok (Text.join nl
               (search_header sample_repr (JStr "Maps")
                  :: app (concat blocks)
                         [summary_line sample_repr 1 (JInt 25)])).
Proof.
  destruct (format_search_results_limit sample_repr sample_fields
              (JStr "Maps") [sample_record] (JInt 25) 25%Z
              eq_refl eq_refl ltac:(discriminate) eq_refl eq_refl eq_refl)
    as (blocks & Hlen & _ & _ & H).
  exists blocks. split; [exact Hlen | exact H].
Defined.

Lemma format_item_details_fields_witness :
  format_item_details sample_repr (JDict sample_item) "/maps"
  = Ok (Text.join nl
          ["📄 **Item Details:**" ++ nl;
           "**Title:** Cairo 1920";
           "**Creator:** Short code";
           nl ++ "🔗 **View Item:** https://digitalcollections.aucegypt.edu/digital/collection/maps/id/12"]).
Proof.
  exact (format_item_details_fields sample_repr sample_item "/maps" eq_refl).
Defined.

Lemma formatters_total_witness :
  exists text,
    format_search_results sample_repr (JDict sample_fields) (JStr "") = Ok text.
Proof.
  apply (proj2 (formatters_total sample_repr sample_fields) (JStr "")).
  reflexivity.
Defined.


(** *** Where the claims, as they stand, fail *)



(** C4.  A payload without records gets no "Showing X of Y" line, whatever
    the total of its pager. *)
Lemma no_summary_without_records :
  format_search_results sample_repr
    (JDict [("records", JList []); ("pager", JDict [("total", JInt 50)])])
    (JStr "")
  = Ok "📭 No items found matching your search criteria."
  /\ contains "Showing" "📭 No items found matching your search criteria."
     = false
  /\ (0 < 50)%Z.
Proof. repeat split. Qed.

(** C5.  A title that the payload does not have is rendered all the
    same. *)
Lemma absent_title_rendered :
  lookup "title" (@nil (string * json)) = None
  /\ format_item_details sample_repr (JDict []) "maps"
     = Ok (Text.join nl ["📄 **Item Details:**" ++ nl; "**Title:** Untitled"]).
Proof. split; reflexivity. Qed.



(** C8.  A record whose collection is not a string makes
    [format_search_results] raise. *)
Lemma malformed_record_raises :
  format_search_results sample_repr
    (JDict [("records", JList [JDict [("collection", JInt 5)]])]) (JStr "")
  = Raise AttributeError.
Proof. reflexivity. Qed.


(** C9.  [initialize] strips the leading separator for the index, and the
    links rendered are stripped; the search of all collections sends the
    identifiers of the stored list as they are, leading separator
    included, and shows the collection of a record as it came. *)
Theorem search_all_keeps_separator :
  initialize sample_service new_chatbot []
  = (Ok (sample_bot, true), [api_url ++ "?q=dmGetCollectionList/json"])
  /\ find_collection_alias sample_bot "rare books" = Some "p15795coll7"
  /\ snd (process_query sample_repr sample_service sample_bot
            "search revolution" [])
     = [api_url ++ "?q=dmQuery//p15795coll7/CISOSEARCHALL^revolution^any^and/title!date!subjec!descri/nosort/5/1/0/0/0/0/0/0/json";
        api_url ++ "?q=dmQuery//maps/CISOSEARCHALL^revolution^any^and/title!date!subjec!descri/nosort/5/1/0/0/0/0/0/0/json"]
  /\ snd (process_query sample_repr sample_service sample_bot
            "browse rare books" [])
     = [api_url ++ "?q=dmQuery/p15795coll7/0/title!date!subjec/nosort/20/1/0/0/0/0/0/0/json"]
  /\ fst (process_query sample_repr maps_service sample_bot
            "search revolution" [])
     = Ok (Text.join nl
             ["🔍 Search results for 'revolution' across collections:" ++ nl;
              "1. **Cairo 1920**";
              "   📅 1920";
              "   📚 Collection: /maps";
              "   🔗 https://digitalcollections.aucegypt.edu/digital/collection/maps/id/12";
              "";
              "📊 Searched in: Maps"]).
Proof. repeat split. Qed.

(* ================================================================= *)
(** ** The further properties on the sample archive *)

Lemma offline_intents_witness :
  resolve_intent sample_bot "commands" = Ok Help
  /\ resolve_intent sample_bot "search collections in maps"
     = Ok ListCollections.
Proof.
  split.
  - apply (proj2 (proj1 (offline_intents sample_bot "commands"))).
    reflexivity.
  - apply (proj2 (proj2 (offline_intents sample_bot
                           "search collections in maps"))).
    split; reflexivity.
Defined.


Lemma unknown_collection_witness :
  browse_collection sample_repr sample_service sample_bot "manuscripts" []
  = (Ok (not_found_message "manuscripts"), []).
Proof.
  refine (proj1 (unknown_collection sample_repr sample_service sample_bot
                   "" "manuscripts" [] eq_refl _)).
  intros k a [H|[H|[H|[]]]]; inversion H; reflexivity.
Defined.

Lemma catch_all_resolution_witness :
  find_collection_alias sample_bot "   " <> None.
Proof.
  apply (catch_all_resolution sample_bot "   ").
  right. split; [discriminate | reflexivity].
Defined.

Lemma index_invariant_witness :
  "maps" <> "" /\ clean "maps" = true
  /\ (exists k, In (k, "maps") (collection_lookup sample_bot)
                /\ Text.lower k = k)
  /\ found (find_collection_alias sample_bot "Maps") = Some "maps".
Proof.
  apply (index_invariant sample_service new_chatbot sample_bot
           [] [collections_url] "Maps" "maps").
  - constructor.
  - reflexivity.
  - reflexivity.
Defined.

Lemma initialize_replies_witness :
  initialize failing_service new_chatbot []
  = (Ok (new_chatbot, false), [collections_url]).
Proof.
  apply (proj1 (initialize_replies sample_repr failing_service
                  new_chatbot [])
               [("error", JStr "API request failed: timed out")]
               (JStr "API request failed: timed out"));
    reflexivity.
Defined.

Lemma index_round_trip_witness :
  find_collection_alias sample_bot "  RARE Books " = Some "p15795coll7".
Proof.
  apply (index_round_trip sample_service new_chatbot sample_bot
           [] [collections_url] [] [maps] rare_books
           "/p15795coll7" "Rare Books"
           eq_refl eq_refl eq_refl eq_refl eq_refl ltac:(discriminate)
           "  RARE Books " "rare books" eq_refl).
  - right. now left.
  - reflexivity.
  - simpl. intros [H|[H|[]]]; discriminate.
Defined.

Lemma make_request_outcome_witness :
  make_request sample_service "dmGetCollectionFieldInfo" [JInt 5] []
  = (Raise TypeError, []).
Proof.
  apply (proj2 (make_request_outcome sample_service
                  "dmGetCollectionFieldInfo" [JInt 5] [])
               (JInt 5)).
  - now left.
  - discriminate.
Defined.

Lemma get_item_details_reply_witness :
  get_item_details sample_repr failing_service "coll123" "999" []
  = (Ok "❌ Error retrieving item: API request failed: timed out",
     [item_info_url "coll123" "999"]).
Proof.
  apply (proj2 (get_item_details_reply sample_repr failing_service
                  "coll123" "999" [])
               [("error", JStr "API request failed: timed out")]
               (JStr "API request failed: timed out"));
    reflexivity.
Defined.


Lemma label_only_in_heading_witness :
  (exists text, forall name,
     format_search_results sample_repr (JDict sample_fields) name = Ok text)
  \/ (exists rest, forall name,
        format_search_results sample_repr (JDict sample_fields) name
        = Ok (Text.join nl (search_header sample_repr name :: rest))).
Proof.
  apply (label_only_in_heading sample_repr sample_fields). reflexivity.
Defined.

Lemma list_collections_limit_witness :
  exists blocks,
    List.length blocks = 2
    /\ list_collections sample_repr sample_bot
       = Ok (Text.join nl
               (("📚 **Available Collections:**" ++ nl) :: concat blocks)).
Proof.
  destruct (list_collections_limit sample_repr sample_bot sample_list
              eq_refl ltac:(discriminate) eq_refl)
    as (blocks & Hlen & _ & _ & H).
  exists blocks. split; [exact Hlen|].
  rewrite H. simpl. now rewrite app_nil_r.
Defined.

Lemma item_rule_witness :
  resolve_intent sample_bot "item coll123 999"
  = Ok (ItemDetail "coll123" "999").
Proof.
  apply (proj2 (proj2 (item_rule sample_bot "item coll123 999"
                         eq_refl eq_refl eq_refl eq_refl eq_refl eq_refl
                         eq_refl eq_refl))
               " " "coll123" " " "999" "");
    try discriminate; try reflexivity.
Defined.

Lemma search_all_rule_witness :
  resolve_intent sample_bot "search ottoman empire"
  = Ok (SearchAll "ottoman empire").
Proof.
  apply (proj2 (search_all_rule sample_bot "search ottoman empire"
                  eq_refl ltac:(simpl; lia))); reflexivity.
Defined.


Lemma search_all_hides_errors_witness :
  search_all_collections sample_repr failing_service sample_bot
    "revolution" []
  = (Ok (no_results_message "revolution"),
     [search_url "/p15795coll7" "revolution" 5;
      search_url "/maps" "revolution" 5]).
Proof.
  apply (search_all_hides_errors sample_repr failing_service sample_bot
           "revolution" sample_list []);
    try discriminate; reflexivity.
Defined.

Lemma initialize_loads_witness :
  exists cb,
    initialize sample_service new_chatbot []
    = (Ok (cb, true), [collections_url])
    /\ collections cb = sample_collections.
Proof.
  destruct (initialize_loads sample_service new_chatbot sample_list []
              eq_refl eq_refl eq_refl) as (cb & H & Hc & _).
  exists cb. split; [exact H | exact Hc].
Defined.

Lemma record_block_witness :
  exists mid a,
    ["1. **Cairo 1920**"; "   📅 1920";
     "   🔗 https://digitalcollections.aucegypt.edu/digital/collection/maps/id/12";
     ""]
    = ("1. **Cairo 1920**")
        :: app mid ["   🔗 " ++ item_url sample_repr a (JInt 12); ""]
    /\ List.length mid <= 2 /\ clean a = true.
Proof.
  apply (record_block sample_repr 1
           [("collection", JStr "/maps"); ("pointer", JInt 12);
            ("title", JStr "Cairo 1920"); ("date", JStr "1920")]).
  left. reflexivity.
Defined.
